(** * LumosTrade agents: retry/backoff callbacks and identity-token minting

    A shallow embedding of the callback layer of the LumosAI agents
    (LumosChatAgent/agent.py, LumosChatAgent/GoogleTools.py,
    LumosConjureAgent/agent.py) and of the token helpers
    (LumosChatAgent/AuthHelper.py, LumosChatAgent/MyTools.py), with the
    properties of the specification stated over it. *)

From Stdlib Require Import ZArith String Ascii List Bool Lia.
From Stdlib Require Import SpecFloat.
From stdpp Require Import base option gmap strings pretty.

Local Open Scope string_scope.
Local Open Scope Z_scope.

(** ** The fragment of Python the callbacks use *)

Module Py.

(** Python [float] is IEEE binary64. *)
Definition prec : Z := 53.
Definition emax : Z := 1024.

Definition fmul : spec_float -> spec_float -> spec_float := SFmul prec emax.
Definition fadd : spec_float -> spec_float -> spec_float := SFadd prec emax.
Definition fltb : spec_float -> spec_float -> bool := SFltb.
Definition fleb : spec_float -> spec_float -> bool := SFleb.

(** [float(z)]: the correctly rounded double of an integer. *)
Definition float_of_int (z : Z) : spec_float :=
  binary_normalize prec emax z 0 false.

(** The values a state entry can hold. [bool] is a subclass of [int] in
    Python and is covered by [PyInt]. *)
Inductive pyval : Type :=
| PyNone
| PyInt (z : Z)
| PyFloat (f : spec_float)
| PyStr (s : string).

Inductive exn_class : Type :=
| KeyError
| TypeError
| ValueError
| OverflowError
| CalledProcessError
| FileNotFoundError
| DefaultCredentialsError
| RuntimeError
| OtherException (name : string).

(** An exception object: its class and [str(e)]. Only subclasses of
    [Exception] are modelled; [KeyboardInterrupt] and [SystemExit] are
    not raised by the operations below. *)
Record pyexn : Type := Exn { exn_cls : exn_class; exn_msg : string }.

Inductive res (A : Type) : Type :=
| Ok (a : A)
| Raise (e : pyexn).
Arguments Ok {A} a.
Arguments Raise {A} e.

Definition exn_class_eqb (a b : exn_class) : bool :=
  match a, b with
  | KeyError, KeyError | TypeError, TypeError | ValueError, ValueError
  | OverflowError, OverflowError
  | CalledProcessError, CalledProcessError
  | FileNotFoundError, FileNotFoundError
  | DefaultCredentialsError, DefaultCredentialsError
  | RuntimeError, RuntimeError => true
  | OtherException n, OtherException m => String.eqb n m
  | _, _ => false
  end.

(** Exact comparison of an integer with a finite or infinite double, as
    Python's mixed [int]/[float] comparison does; [None] for NaN. *)
Definition compare_float_int (f : spec_float) (n : Z) : option comparison :=
  match f with
  | S754_nan => None
  | S754_infinity s => Some (if s then Lt else Gt)
  | S754_zero _ => Some (0 ?= n)
  | S754_finite s m e =>
      let v := if s then Z.neg m else Z.pos m in
      Some (if 0 <=? e then (v * 2 ^ e ?= n) else (v ?= n * 2 ^ (- e)))
  end.

(** [v >= n] for an [int] constant [n]. *)
Definition ge_int (v : pyval) (n : Z) : res bool :=
  match v with
  | PyInt z => Ok (n <=? z)
  | PyFloat f =>
      Ok match compare_float_int f n with
         | Some (Gt | Eq) => true
         | _ => false
         end
  | PyNone | PyStr _ =>
      Raise (Exn TypeError "'>=' not supported between these operand types")
  end.

(** [v + n] for an [int] constant [n]. *)
Definition add_int (v : pyval) (n : Z) : res pyval :=
  match v with
  | PyInt z => Ok (PyInt (z + n))
  | PyFloat f =>
      match float_of_int n with
      | S754_infinity _ =>
          Raise (Exn OverflowError "int too large to convert to float")
      | fn => Ok (PyFloat (fadd f fn))
      end
  | PyNone | PyStr _ =>
      Raise (Exn TypeError "unsupported operand type(s) for +")
  end.

(** [v * k] for a [float] constant [k]; the product is always a float. *)
Definition mul_float (v : pyval) (k : spec_float) : res spec_float :=
  match v with
  | PyInt z =>
      match float_of_int z with
      | S754_infinity _ =>
          Raise (Exn OverflowError "int too large to convert to float")
      | fz => Ok (fmul fz k)
      end
  | PyFloat f => Ok (fmul f k)
  | PyNone | PyStr _ =>
      Raise (Exn TypeError "unsupported operand type(s) for *")
  end.

(** The builtin [min(a, b)] on two floats: [b] when [b < a], else [a]. *)
Definition min (a b : spec_float) : spec_float :=
  if fltb b a then b else a.

(** [error or exception]: the first operand when it is truthy. An
    exception object is truthy, [None] is not. *)
Definition or_ (a b : option pyexn) : option pyexn :=
  match a with
  | Some _ => a
  | None => b
  end.

(** [time.sleep(secs)] accepts a non-negative number whose nanosecond
    count fits the interpreter's signed 64-bit clock. *)
Definition ns_per_s : Z := 1000000000.
Definition clock_max : Z := 2 ^ 63.

Definition sleep_check (v : pyval) : res unit :=
  match v with
  | PyInt z =>
      if (clock_max <=? z * ns_per_s) || (z * ns_per_s <? - clock_max)
      then Raise (Exn OverflowError "timestamp too large to convert to C _PyTime_t")
      else if z <? 0
      then Raise (Exn ValueError "sleep length must be non-negative")
      else Ok tt
  | PyFloat f =>
      match f with
      | S754_nan => Raise (Exn ValueError "Invalid value NaN (not a number)")
      | _ =>
          let ns := fmul f (float_of_int ns_per_s) in
          match compare_float_int ns clock_max, compare_float_int ns (- clock_max) with
          | Some Lt, Some (Gt | Eq) =>
              if fltb f (S754_zero false)
              then Raise (Exn ValueError "sleep length must be non-negative")
              else Ok tt
          | _, _ =>
              Raise (Exn OverflowError "timestamp too large to convert to C _PyTime_t")
          end
      end
  | PyNone | PyStr _ =>
      Raise (Exn TypeError "object cannot be interpreted as an integer")
  end.

End Py.
Export Py.

(** ** Float literals of the sources *)

(** [0.1], [0.2], [0.4], [2.0] and [10.0] as doubles. *)
Definition f0_1 : spec_float := S754_finite false 7205759403792794 (-56).
Definition f0_2 : spec_float := S754_finite false 7205759403792794 (-55).
Definition f0_4 : spec_float := S754_finite false 7205759403792794 (-54).
Definition f2_0 : spec_float := S754_finite false 4503599627370496 (-51).
Definition f10_0 : spec_float := S754_finite false 5629499534213120 (-49).

(** ** Effects of a callback: the shared state dict and the sleeps *)

(** [callback_context.state] is one mutable mapping shared by every call;
    [slept] records the arguments of the [time.sleep] calls that returned,
    oldest first. A raised exception leaves the mutations done so far. *)
Record World : Type := mkWorld {
  state : gmap string pyval;
  slept : list pyval
}.

Definition M (A : Type) : Type := World -> World * res A.

Definition ret {A : Type} (a : A) : M A := fun w => (w, Ok a).

Definition bind {A B : Type} (c : M A) (k : A -> M B) : M B :=
  fun w =>
    match c w with
    | (w', Ok a) => k a w'
    | (w', Raise e) => (w', Raise e)
    end.

Definition lift {A : Type} (r : res A) : M A := fun w => (w, r).

Notation "'let*' x ':=' c 'in' k" := (bind c (fun x => k))
  (at level 10, x name, c at level 100, k at level 200).
Notation "c '>>' k" := (bind c (fun _ => k))
  (at level 65, right associativity).

(** [key in state] *)
Definition state_contains (key : string) : M bool :=
  fun w => (w, Ok (bool_decide (is_Some (state w !! key)))).

(** [state[key]] *)
Definition state_get (key : string) : M pyval :=
  fun w =>
    match state w !! key with
    | Some v => (w, Ok v)
    | None => (w, Raise (Exn KeyError ("'" +:+ key +:+ "'")))
    end.

(** [state[key] = v] *)
Definition state_set (key : string) (v : pyval) : M unit :=
  fun w => (mkWorld (<[key := v]> (state w)) (slept w), Ok tt).

(** [del state[key]] *)
Definition state_del (key : string) : M unit :=
  fun w =>
    match state w !! key with
    | Some _ => (mkWorld (delete key (state w)) (slept w), Ok tt)
    | None => (w, Raise (Exn KeyError ("'" +:+ key +:+ "'")))
    end.

(** [time.sleep(v)] *)
Definition time_sleep (v : pyval) : M unit :=
  fun w =>
    match sleep_check v with
    | Ok _ => (mkWorld (state w) (slept w ++ [v]), Ok tt)
    | Raise e => (w, Raise e)
    end.

(** The failing request object; the callbacks only take its [id()]. *)
Record LlmRequest : Type := mkRequest { py_id : Z }.

(** ** LumosChatAgent/agent.py *)

Module ChatAgent.

Definition RETRY_MAX_ATTEMPTS : Z := 3.
Definition RETRY_INITIAL_DELAY : spec_float := f0_1.
Definition RETRY_MAX_DELAY : spec_float := f10_0.
Definition RETRY_MULTIPLIER : spec_float := f2_0.

Definition rate_limit_callback (llm_request : LlmRequest) : M pyval :=
  time_sleep (PyFloat f0_1) >>
  ret PyNone.

Definition retry_on_error_callback (llm_request : LlmRequest)
    (error exception : option pyexn) : M pyval :=
  let err := Py.or_ error exception in
  let request_id := py_id llm_request in
  let retry_key := "retry_count_" +:+ pretty request_id in
  let delay_key := "retry_delay_" +:+ pretty request_id in
  let* present := state_contains retry_key in
  (if negb present
   then state_set retry_key (PyInt 0) >>
        state_set delay_key (PyFloat RETRY_INITIAL_DELAY)
   else ret tt) >>
  let* retry_count := state_get retry_key in
  let* current_delay := state_get delay_key in
  let* exhausted := lift (Py.ge_int retry_count (RETRY_MAX_ATTEMPTS - 1)) in
  if exhausted
  then state_del retry_key >>
       state_del delay_key >>
       ret PyNone
  else let* incremented := lift (Py.add_int retry_count 1) in
       state_set retry_key incremented >>
       time_sleep current_delay >>
       let* product := lift (Py.mul_float current_delay RETRY_MULTIPLIER) in
       let next_delay := Py.min product RETRY_MAX_DELAY in
       state_set delay_key (PyFloat next_delay) >>
       ret PyNone.

End ChatAgent.

(** ** LumosChatAgent/GoogleTools.py *)

Module GoogleTools.

Definition RETRY_MAX_ATTEMPTS : Z := 3.
Definition RETRY_INITIAL_DELAY : spec_float := f0_1.
Definition RETRY_MAX_DELAY : spec_float := f10_0.
Definition RETRY_MULTIPLIER : spec_float := f2_0.

Definition rate_limit_callback (llm_request : LlmRequest) : M pyval :=
  time_sleep (PyFloat f0_1) >>
  ret PyNone.

Definition retry_on_error_callback (llm_request : LlmRequest)
    (error exception : option pyexn) : M pyval :=
  let err := Py.or_ error exception in
  let request_id := py_id llm_request in
  let retry_key := "retry_count_" +:+ pretty request_id in
  let delay_key := "retry_delay_" +:+ pretty request_id in
  let* present := state_contains retry_key in
  (if negb present
   then state_set retry_key (PyInt 0) >>
        state_set delay_key (PyFloat RETRY_INITIAL_DELAY)
   else ret tt) >>
  let* retry_count := state_get retry_key in
  let* current_delay := state_get delay_key in
  let* exhausted := lift (Py.ge_int retry_count (RETRY_MAX_ATTEMPTS - 1)) in
  if exhausted
  then state_del retry_key >>
       state_del delay_key >>
       ret PyNone
  else let* incremented := lift (Py.add_int retry_count 1) in
       state_set retry_key incremented >>
       time_sleep current_delay >>
       let* product := lift (Py.mul_float current_delay RETRY_MULTIPLIER) in
       let next_delay := Py.min product RETRY_MAX_DELAY in
       state_set delay_key (PyFloat next_delay) >>
       ret PyNone.

End GoogleTools.

(** ** LumosConjureAgent/agent.py *)

Module ConjureAgent.

Definition RETRY_MAX_ATTEMPTS : Z := 3.
Definition RETRY_INITIAL_DELAY : spec_float := f0_1.
Definition RETRY_MAX_DELAY : spec_float := f10_0.
Definition RETRY_MULTIPLIER : spec_float := f2_0.

Definition rate_limit_callback (llm_request : LlmRequest) : M pyval :=
  time_sleep (PyFloat f0_1) >>
  ret PyNone.

Definition retry_on_error_callback (llm_request : LlmRequest)
    (error exception : option pyexn) : M pyval :=
  let err := Py.or_ error exception in
  let request_id := py_id llm_request in
  let retry_key := "retry_count_" +:+ pretty request_id in
  let delay_key := "retry_delay_" +:+ pretty request_id in
  let* present := state_contains retry_key in
  (if negb present
   then state_set retry_key (PyInt 0) >>
        state_set delay_key (PyFloat RETRY_INITIAL_DELAY)
   else ret tt) >>
  let* retry_count := state_get retry_key in
  let* current_delay := state_get delay_key in
  let* exhausted := lift (Py.ge_int retry_count (RETRY_MAX_ATTEMPTS - 1)) in
  if exhausted
  then state_del retry_key >>
       state_del delay_key >>
       ret PyNone
  else let* incremented := lift (Py.add_int retry_count 1) in
       state_set retry_key incremented >>
       time_sleep current_delay >>
       let* product := lift (Py.mul_float current_delay RETRY_MULTIPLIER) in
       let next_delay := Py.min product RETRY_MAX_DELAY in
       state_set delay_key (PyFloat next_delay) >>
       ret PyNone.

End ConjureAgent.

(** ** LumosChatAgent/AuthHelper.py *)

Module AuthHelper.

(** What [subprocess.run] meets: the child ran and exited with a return
    code, or it could not be started (a missing binary raises
    [FileNotFoundError] from the spawn itself). *)
Inductive proc_outcome : Type :=
| Exited (returncode : Z) (stdout : string)
| SpawnFailed (e : pyexn).

(** The external collaborators of the helper: the process environment,
    the identity CLI and the credential provider. *)
Record Env : Type := mkEnv {
  environ : gmap string string;
  spawn : list string -> proc_outcome;
  google_auth_default : res unit;
  credentials_refresh : res unit;
  fetch_id_token : string -> res string
}.

(** [subprocess.run(argv, capture_output=True, text=True, check=True)]:
    with [check=True] a non-zero return code raises
    [CalledProcessError]. *)
Definition subprocess_run (env : Env) (argv : list string) : res string :=
  match spawn env argv with
  | Exited 0 out => Ok out
  | Exited _ _ =>
      Raise (Exn CalledProcessError "Command returned non-zero exit status")
  | SpawnFailed e => Raise e
  end.

(** [str.strip()]. A character of a text is one Unicode code point below
    256: one [ascii] stands for one character of the Python [str], not
    for a byte of an encoding. The white space among these characters, as
    [str.isspace] and [str.strip] have it, is U+0009 to U+000D, U+001C to
    U+0020, U+0085 (next line) and U+00A0 (no-break space). *)
Definition is_space (c : ascii) : bool :=
  let n := Z.of_nat (nat_of_ascii c) in
  ((9 <=? n) && (n <=? 13)) || ((28 <=? n) && (n <=? 32))
  || (n =? 133) || (n =? 160).

Fixpoint lstrip (s : string) : string :=
  match s with
  | String c s' => if is_space c then lstrip s' else s
  | EmptyString => EmptyString
  end.

Fixpoint rstrip (s : string) : string :=
  match s with
  | String c s' =>
      match rstrip s' with
      | EmptyString => if is_space c then EmptyString else String c EmptyString
      | t => String c t
      end
  | EmptyString => EmptyString
  end.

Definition strip (s : string) : string := rstrip (lstrip s).

Definition truthy (s : option string) : option string :=
  match s with
  | Some EmptyString | None => None
  | Some v => Some v
  end.

Definition bind_res {A B : Type} (r : res A) (k : A -> res B) : res B :=
  match r with
  | Ok a => k a
  | Raise e => Raise e
  end.

Definition NO_ADC_MESSAGE : string :=
  "No Application Default Credentials found. " +:+
  "If running locally, set GOOGLE_APPLICATION_CREDENTIALS to a service-account key or run " +:+
  "'gcloud auth application-default login'. If running in Cloud Run, ensure the service has " +:+
  "a service account and metadata server access.".

Definition FETCH_FAILED_MESSAGE : string :=
  "Failed to fetch Google ID token. Verify ADC is configured and the audience URL is correct.".

(** Lines 52-56: the ambient default-credentials path. *)
Definition default_path (env : Env) (audience_url : string) : res string :=
  bind_res (google_auth_default env) (fun _ =>
  bind_res (credentials_refresh env) (fun _ =>
  bind_res (fetch_id_token env audience_url) (fun token =>
  Ok ("Bearer " +:+ token)))).

(** Lines 28-56: the body of the outer [try]. *)
Definition try_body (env : Env) (audience_url : string) : res string :=
  match truthy (environ env !! "AGENT_SERVICE_ACCOUNT") with
  | Some agent_service_account =>
      match subprocess_run env
              [ "gcloud"; "auth"; "print-identity-token";
                "--impersonate-service-account=" +:+ agent_service_account;
                "--audiences=" +:+ audience_url ] with
      | Ok stdout => Ok ("Bearer " +:+ strip stdout)
      | Raise e =>
          if exn_class_eqb (exn_cls e) CalledProcessError
          then default_path env audience_url
          else Raise e
      end
  | None => default_path env audience_url
  end.

Definition get_id_token_for_service (env : Env) (audience_url : string)
    : res string :=
  match try_body env audience_url with
  | Ok bearer => Ok bearer
  | Raise exc =>
      if exn_class_eqb (exn_cls exc) DefaultCredentialsError
      then Raise (Exn DefaultCredentialsError NO_ADC_MESSAGE)
      else Raise (Exn RuntimeError FETCH_FAILED_MESSAGE)
  end.

End AuthHelper.

(** ** LumosChatAgent/MyTools.py *)

Module MyTools.
Import AuthHelper.

(** The module globals read from the environment at import time. *)
Record Globals : Type := mkGlobals {
  lumosdb_service_url : string;
  lumostrade_service_url : string
}.

Definition load (env : Env) : res Globals :=
  match truthy (environ env !! "TOOL_LUMOSDB_SERVICE_URL") with
  | None => Raise (Exn RuntimeError "TOOL_LUMOSDB_SERVICE_URL must be set")
  | Some db =>
      match truthy (environ env !! "TOOL_LUMOSTRADE_SERVICE_URL") with
      | None => Raise (Exn RuntimeError "TOOL_LUMOSTRADE_SERVICE_URL must be set")
      | Some trade => Ok (mkGlobals db trade)
      end
  end.

(** A header provider returns the lines it printed and its result.
    [print] is the builtin writing to standard output: it can raise
    ([OSError] on a closed pipe, [UnicodeEncodeError]), and in the
    providers it is called inside the [except] handler, outside any
    [try], so that its exception reaches the caller. *)
Definition Printed (A : Type) : Type := list string * res A.

Definition get_lumosdb_auth_headers {C : Type} (g : Globals) (env : Env)
    (print : string -> res unit) (context : C)
    : Printed (gmap string string) :=
  match get_id_token_for_service env (lumosdb_service_url g) with
  | Ok bearer => ([], Ok {[ "Authorization" := bearer ]})
  | Raise e =>
      let line :=
        "Failed to fetch ID token for LumosDB at (" +:+ lumosdb_service_url g
          +:+ "): " +:+ exn_msg e in
      match print line with
      | Ok _ => ([line], Ok ∅)
      | Raise print_error => ([], Raise print_error)
      end
  end.

Definition get_lumostrade_auth_headers {C : Type} (g : Globals) (env : Env)
    (print : string -> res unit) (context : C)
    : Printed (gmap string string) :=
  match get_id_token_for_service env (lumostrade_service_url g) with
  | Ok bearer => ([], Ok {[ "Authorization" := bearer ]})
  | Raise e =>
      let line :=
        "Failed to fetch ID token for LumosTrade at ("
          +:+ lumostrade_service_url g +:+ "): " +:+ exn_msg e in
      match print line with
      | Ok _ => ([line], Ok ∅)
      | Raise print_error => ([], Raise print_error)
      end
  end.

End MyTools.

(** ** Vocabulary for the retry coordinator *)

Module RetrySpec.
Import ChatAgent.

(** The two state keys a call derives from the request (lines 34-36). *)
Definition retry_key (r : LlmRequest) : string :=
  "retry_count_" +:+ pretty (py_id r).
Definition delay_key (r : LlmRequest) : string :=
  "retry_delay_" +:+ pretty (py_id r).

(** The delay stored after [n] retries of one request. *)
Fixpoint backoff (n : nat) : spec_float :=
  match n with
  | O => RETRY_INITIAL_DELAY
  | S k => Py.min (Py.fmul (backoff k) RETRY_MULTIPLIER) RETRY_MAX_DELAY
  end.

(** Consecutive failures of one request: the framework calls the
    callback once per failure, with that failure's error arguments, on
    the world the previous call left. *)
Fixpoint run (errs : list (option pyexn * option pyexn)) (r : LlmRequest)
    (w : World) : list (World * res pyval) :=
  match errs with
  | [] => []
  | (error, exception) :: rest =>
      let o := retry_on_error_callback r error exception w in
      o :: run rest r (fst o)
  end.

(** The entry a call works on (lines 38-43): the stored one, or the one
    it creates when the retry-count key is absent. *)
Definition current (r : LlmRequest) (w : World) (c : Z) (d : spec_float)
    : Prop :=
  (state w !! retry_key r = None ∧ c = 0 ∧ d = RETRY_INITIAL_DELAY) ∨
  (state w !! retry_key r = Some (PyInt c) ∧
   state w !! delay_key r = Some (PyFloat d)).

(** A retry step from [w] to [w']: the attempt count is incremented, the
    current delay is slept, and the next delay is stored. *)
Definition retry_step (r : LlmRequest) (w w' : World) : Prop :=
  ∃ (c : Z) (d : spec_float),
    current r w c d ∧
    c < RETRY_MAX_ATTEMPTS - 1 ∧
    state w' !! retry_key r = Some (PyInt (c + 1)) ∧
    slept w' = (slept w ++ [PyFloat d])%list ∧
    state w' !! delay_key r =
      Some (PyFloat (Py.min (Py.fmul d RETRY_MULTIPLIER) RETRY_MAX_DELAY)) ∧
    Py.fleb d (Py.min (Py.fmul d RETRY_MULTIPLIER) RETRY_MAX_DELAY) = true ∧
    Py.fleb (Py.min (Py.fmul d RETRY_MULTIPLIER) RETRY_MAX_DELAY)
      RETRY_MAX_DELAY = true.

(** An exhaustion step: both entries are removed and nothing is slept. *)
Definition exhaust_step (r : LlmRequest) (w w' : World) : Prop :=
  ∃ (c : Z) (d : spec_float),
    current r w c d ∧
    RETRY_MAX_ATTEMPTS - 1 <= c ∧
    state w' !! retry_key r = None ∧
    state w' !! delay_key r = None ∧
    slept w' = slept w.

(** The position of a state in the backoff sequence: a request without
    entry is at position 0, a stored delay [backoff n] at position [n]. *)
Definition indexed (r : LlmRequest) (w : World) (n : nat) : Prop :=
  (state w !! retry_key r = None ∧ n = 0%nat) ∨
  ∃ c : Z,
    state w !! retry_key r = Some (PyInt c) ∧
    state w !! delay_key r = Some (PyFloat (backoff n)).

(** The states the coordinator itself produces for a request: no entry,
    or an integer count with a delay of the backoff sequence. *)
Definition coordinated (r : LlmRequest) (w : World) : Prop :=
  state w !! retry_key r = None ∨
  ∃ (c : Z) (n : nat),
    state w !! retry_key r = Some (PyInt c) ∧
    state w !! delay_key r = Some (PyFloat (backoff n)).

(** Every call of a run returns [None] after a retry step or an
    exhaustion step. *)
Fixpoint steps_ok (r : LlmRequest) (w : World)
    (os : list (World * res pyval)) : Prop :=
  match os with
  | [] => True
  | (w', v) :: rest =>
      v = Ok PyNone ∧
      (retry_step r w w' ∨ exhaust_step r w w') ∧
      steps_ok r w' rest
  end.

(** The delay a state stores for the request, and the sequence of the
    delays stored after each call of a run. *)
Definition stored_delay (r : LlmRequest) (w : World) : option pyval :=
  state w !! delay_key r.

Definition stored_delays (r : LlmRequest) (os : list (World * res pyval))
    : list (option pyval) :=
  map (fun o => stored_delay r (fst o)) os.

Fixpoint nondecreasing (ds : list spec_float) : Prop :=
  match ds with
  | a :: (b :: _) as rest => Py.fleb a b = true ∧ nondecreasing rest
  | _ => True
  end.

(** The delay of a live entry: the stored delay while the retry-count key
    is present. *)
Definition live_delay (r : LlmRequest) (w : World) : option pyval :=
  match state w !! retry_key r with
  | Some _ => state w !! delay_key r
  | None => None
  end.

(** From one call to the next a stored delay does not decrease; a call
    that removed the entry, or found none, compares with nothing. *)
Definition delay_le (a b : option pyval) : Prop :=
  match a, b with
  | Some (PyFloat x), Some (PyFloat y) => Py.fleb x y = true
  | _, _ => True
  end.

Fixpoint never_decreases (ds : list (option pyval)) : Prop :=
  match ds with
  | [] => True
  | a :: rest =>
      match rest with
      | b :: _ => delay_le a b
      | [] => True
      end ∧ never_decreases rest
  end.

(** A stored delay is a float of at most [RETRY_MAX_DELAY]. *)
Definition delay_bounded (d : option pyval) : Prop :=
  match d with
  | Some (PyFloat x) => Py.fleb x RETRY_MAX_DELAY = true
  | Some _ => False
  | None => True
  end.

(** No call of the run has removed the entry of the request. *)
Definition not_exhausted (r : LlmRequest) (os : list (World * res pyval))
    : Prop :=
  Forall (fun o => is_Some (state (fst o) !! retry_key r)) os.

(** The two entries of a request are stored together. *)
Definition paired (r : LlmRequest) (w : World) : Prop :=
  is_Some (state w !! retry_key r) ↔ is_Some (state w !! delay_key r).

(** A request and three states of it: before its first failure, after
    its second retry, and with a count but no delay. *)
Definition request7 : LlmRequest := mkRequest 7.
Definition world_fresh : World := mkWorld ∅ [].
Definition world_retried_twice : World :=
  mkWorld (<["retry_delay_7" := PyFloat f0_4]>
             (<["retry_count_7" := PyInt 2]> ∅))
          [PyFloat f0_1; PyFloat f0_2].
Definition world_count_only : World :=
  mkWorld (<["retry_count_7" := PyInt 0]> ∅) [].
Definition two_failures : list (option pyexn * option pyexn) :=
  [ (Some (Exn (OtherException "ServerError") "503 UNAVAILABLE"), None);
    (None, Some (Exn (OtherException "ServerError") "503 UNAVAILABLE")) ].
Definition four_failures : list (option pyexn * option pyexn) :=
  [ (None, None); (None, None); (None, None); (None, None) ].

End RetrySpec.

(** ** Vocabulary for the token helpers *)

Module AuthSpec.
Import AuthHelper MyTools.

(** Substring test, for the texts of error messages. *)
Fixpoint contains (needle hay : string) : bool :=
  String.prefix needle hay ||
  match hay with
  | String _ rest => contains needle rest
  | EmptyString => false
  end.

(** The command line of the impersonation step (lines 34-40). *)
Definition impersonation_argv (agent_service_account audience_url : string)
    : list string :=
  [ "gcloud"; "auth"; "print-identity-token";
    "--impersonate-service-account=" +:+ agent_service_account;
    "--audiences=" +:+ audience_url ].


(** Impersonation is configured, the CLI binary is missing, and the
    ambient credentials would mint a token. *)
Definition env_missing_cli : Env :=
  mkEnv (<["AGENT_SERVICE_ACCOUNT" := "agent@lumos.iam.gserviceaccount.com"]> ∅)
        (fun _ => SpawnFailed
                    (Exn FileNotFoundError
                       "[Errno 2] No such file or directory: 'gcloud'"))
        (Ok tt) (Ok tt) (fun _ => Ok "ambient-token").

(** Impersonation is configured and the CLI prints a token. *)
Definition env_impersonating : Env :=
  mkEnv (<["AGENT_SERVICE_ACCOUNT" := "agent@lumos.iam.gserviceaccount.com"]> ∅)
        (fun _ => Exited 0 ("cli-token" +:+ String (ascii_of_nat 10) EmptyString))
        (Ok tt) (Ok tt) (fun _ => Ok "ambient-token").

(** No impersonation and no ambient credentials. *)
Definition env_no_credentials : Env :=
  mkEnv ∅
        (fun _ => Exited 1 EmptyString)
        (Raise (Exn DefaultCredentialsError
                  "Your default credentials were not found."))
        (Ok tt) (fun _ => Ok "ambient-token").

(** The first step of the ambient path that fails, among credentials
    discovery (line 52), their refresh (line 54) and the token request
    for the audience (line 55), raises [e]. *)
Definition ambient_failure (env : Env) (audience_url : string) (e : pyexn)
    : Prop :=
  google_auth_default env = Raise e ∨
  (google_auth_default env = Ok tt ∧ credentials_refresh env = Raise e) ∨
  (google_auth_default env = Ok tt ∧ credentials_refresh env = Ok tt ∧
   fetch_id_token env audience_url = Raise e).

(** No impersonation; one step of the ambient path fails with an error
    that is no [DefaultCredentialsError]: the discovery, the refresh, the
    token request. *)
Definition transport_error : pyexn :=
  Exn (OtherException "TransportError")
      "HTTPSConnectionPool: Max retries exceeded".
Definition refresh_error : pyexn :=
  Exn (OtherException "RefreshError") "invalid_grant: Token has been expired".
Definition env_discovery_broken : Env :=
  mkEnv ∅ (fun _ => Exited 1 EmptyString)
        (Raise transport_error) (Ok tt) (fun _ => Ok "ambient-token").
Definition env_refresh_fails : Env :=
  mkEnv ∅ (fun _ => Exited 1 EmptyString)
        (Ok tt) (Raise refresh_error) (fun _ => Ok "ambient-token").
Definition env_fetch_fails : Env :=
  mkEnv ∅ (fun _ => Exited 1 EmptyString)
        (Ok tt) (Ok tt) (fun _ => Raise transport_error).

Definition broken_pipe : pyexn :=
  Exn (OtherException "BrokenPipeError") "[Errno 32] Broken pipe".
Definition stdout_closed : string -> res unit := fun _ => Raise broken_pipe.

End AuthSpec.

(** ** String methods of the configuration code *)

Module PyStr.

(** [s.split(sep)] for a separator of one character. *)
Fixpoint split (sep : ascii) (s : string) : list string :=
  match s with
  | EmptyString => [EmptyString]
  | String c rest =>
      if Ascii.eqb c sep
      then EmptyString :: split sep rest
      else match split sep rest with
           | piece :: pieces => String c piece :: pieces
           | [] => [String c EmptyString]
           end
  end.

(** [s.rstrip(ch)] for a set of one character. *)
Fixpoint rstrip_char (ch : ascii) (s : string) : string :=
  match s with
  | EmptyString => EmptyString
  | String c rest =>
      match rstrip_char ch rest with
      | EmptyString =>
          if Ascii.eqb c ch then EmptyString else String c EmptyString
      | t => String c t
      end
  end.

(** [os.environ.get(key, default)] *)
Definition environ_get (environ : gmap string string) (key default : string)
    : string :=
  match environ !! key with
  | Some v => v
  | None => default
  end.

End PyStr.

(** ** LumosChatAgent/MyTools.py, lines 16 and 51 *)

Module MyToolsUrls.
Import MyTools.

Definition lumosdb_service_url_mcp (g : Globals) : string :=
  PyStr.rstrip_char "/" (lumosdb_service_url g) +:+ "/mcp".

Definition lumostrade_service_url_mcp (g : Globals) : string :=
  PyStr.rstrip_char "/" (lumostrade_service_url g) +:+ "/mcp".

End MyToolsUrls.

(** ** Tools/LumosTradeTool/my_agent/agent.py *)

Module TradeToolTestAgent.

Definition local_port (environ : gmap string string) : string :=
  PyStr.environ_get environ "TOOL_LUMOSTRADE_LOCAL_PORT" "8082".

Definition base_url (environ : gmap string string) : string :=
  PyStr.environ_get environ "TOOL_LUMOSTRADE_LOCAL_URL"
    ("http://127.0.0.1:" +:+ local_port environ).

Definition mcp_url (environ : gmap string string) : string :=
  PyStr.rstrip_char "/" (base_url environ) +:+ "/mcp".

End TradeToolTestAgent.

(** ** main.py *)

Module Main.

(** The module globals of lines 30-38. *)
Record Settings : Type := mkSettings {
  environment : string;
  build_number : string;
  lumosdb_service_url : string;
  allowed_origins : list string
}.

Definition load (environ : gmap string string) : res Settings :=
  let environment := PyStr.environ_get environ "ENVIRONMENT" "development" in
  let build_number := PyStr.environ_get environ "BUILD_NUMBER" "local" in
  let lumosdb_service_url :=
    PyStr.environ_get environ "TOOL_LUMOSDB_SERVICE_URL" EmptyString in
  match AuthHelper.truthy (environ !! "ALLOWED_ORIGINS") with
  | None =>
      Raise (Exn ValueError "ALLOWED_ORIGINS environment variable is required")
  | Some allowed_origins_str =>
      Ok (mkSettings environment build_number lumosdb_service_url
            (map AuthHelper.strip (PyStr.split "," allowed_origins_str)))
  end.

(** The health-check endpoint. *)
Definition root : string := "Hello World".

(** The two lines printed at start-up (lines 59-60). *)
Definition banner (cfg : Settings) : list string :=
  [ "Starting Lumos Agent in " +:+ environment cfg +:+ " mode...";
    "Build: " +:+ build_number cfg ].

End Main.

(** ** Vocabulary for the further properties *)

Module MoreSpec.
Import ChatAgent RetrySpec.

(** The world a run of consecutive failures ends in. *)
Fixpoint after (errs : list (option pyexn * option pyexn)) (r : LlmRequest)
    (w : World) : World :=
  match errs with
  | [] => w
  | (error, exception) :: rest =>
      after rest r (fst (retry_on_error_callback r error exception w))
  end.

(** The sleeps of [k] full rounds of two retries. *)
Fixpoint rounds (k : nat) : list pyval :=
  match k with
  | O => []
  | S k' => PyFloat f0_1 :: PyFloat f0_2 :: rounds k'
  end.

(** [sep.join(pieces)] *)
Fixpoint join (sep : string) (pieces : list string) : string :=
  match pieces with
  | [] => EmptyString
  | [piece] => piece
  | piece :: rest => piece +:+ sep +:+ join sep rest
  end.

(** Number of occurrences of a character. *)
Fixpoint count_char (ch : ascii) (s : string) : nat :=
  match s with
  | EmptyString => O
  | String c rest => (if Ascii.eqb c ch then 1 else 0) + count_char ch rest
  end.

(** Every character of the text is white space. *)
Fixpoint all_space (s : string) : bool :=
  match s with
  | EmptyString => true
  | String c rest => AuthHelper.is_space c && all_space rest
  end.

(** First and last character, when there is one. *)
Definition first_char (s : string) : option ascii :=
  match s with
  | EmptyString => None
  | String c _ => Some c
  end.

Fixpoint last_char (s : string) : option ascii :=
  match s with
  | EmptyString => None
  | String c EmptyString => Some c
  | String _ rest => last_char rest
  end.

(** The text neither starts nor ends with white space. *)
Definition trimmed (s : string) : Prop :=
  (∀ c, first_char s = Some c → AuthHelper.is_space c = false) ∧
  (∀ c, last_char s = Some c → AuthHelper.is_space c = false).

(** Two requests with different identities, and states for the edge
    cases of a call. *)
Definition request8 : LlmRequest := mkRequest 8.
Definition world_text_count : World :=
  mkWorld (<["retry_delay_7" := PyFloat f0_1]>
             (<["retry_count_7" := PyStr "two"]> ∅)) [].
Definition world_negative_delay : World :=
  mkWorld (<["retry_delay_7" := PyFloat (S754_finite true 4503599627370496 (-52))]>
             (<["retry_count_7" := PyInt 0]> ∅)) [].
Definition world_stale_delay : World :=
  mkWorld (<["retry_delay_7" := PyStr "stale"]> ∅) [].
Definition world_other_entries : World :=
  mkWorld (<["user:name" := PyStr "ada"]> ∅) [PyFloat f0_1].
Definition three_failures : list (option pyexn * option pyexn) :=
  [ (None, None); (None, None); (None, None) ].

End MoreSpec.

Module ConfigSpec.
Import AuthHelper MyTools AuthSpec MoreSpec.

(** The environment with the impersonation identity removed. *)
Definition without_impersonation (env : Env) : Env :=
  mkEnv (delete "AGENT_SERVICE_ACCOUNT" (environ env)) (spawn env)
        (google_auth_default env) (credentials_refresh env)
        (fetch_id_token env).

(** [n] slashes. *)
Fixpoint slashes (n : nat) : string :=
  match n with
  | O => EmptyString
  | S k => String "/" (slashes k)
  end.

(** The two errors the token helper raises. *)
Definition no_adc_error : pyexn := Exn DefaultCredentialsError NO_ADC_MESSAGE.
Definition fetch_failed_error : pyexn := Exn RuntimeError FETCH_FAILED_MESSAGE.

(** The three outcomes of a header provider for the service [label] at
    [url]. *)
Definition failure_line (label url message : string) : string :=
  "Failed to fetch ID token for " +:+ label +:+ " at (" +:+ url +:+ "): "
    +:+ message.

Definition three_outcomes (env : Env) (print : string → res unit)
    (label url : string) (out : Printed (gmap string string)) : Prop :=
  (∃ bearer : string,
     get_id_token_for_service env url = Ok bearer ∧
     out = ([], Ok {[ "Authorization" := bearer ]})) ∨
  (∃ message : string,
     (message = NO_ADC_MESSAGE ∨ message = FETCH_FAILED_MESSAGE) ∧
     print (failure_line label url message) = Ok tt ∧
     out = ([ failure_line label url message ], Ok ∅)) ∨
  (∃ (message : string) (print_error : pyexn),
     (message = NO_ADC_MESSAGE ∨ message = FETCH_FAILED_MESSAGE) ∧
     print (failure_line label url message) = Raise print_error ∧
     out = ([], Raise print_error)).

(** Impersonation is configured, the CLI exits with status 1, and the
    ambient credentials mint a token that names its audience. *)
Definition env_cli_fails : Env :=
  mkEnv (<["AGENT_SERVICE_ACCOUNT" := "agent@lumos.iam.gserviceaccount.com"]> ∅)
        (fun _ => Exited 1 EmptyString)
        (Ok tt) (Ok tt) (fun audience => Ok ("token-for-" +:+ audience)).

(** The impersonation variable is set to the empty text. *)
Definition env_empty_account : Env :=
  mkEnv (<["AGENT_SERVICE_ACCOUNT" := EmptyString]> ∅)
        (fun _ => Exited 0 "cli-token")
        (Ok tt) (Ok tt) (fun audience => Ok ("token-for-" +:+ audience)).

(** The CLI exits with status 0 and prints a blank line. *)
Definition env_blank_output : Env :=
  mkEnv (<["AGENT_SERVICE_ACCOUNT" := "agent@lumos.iam.gserviceaccount.com"]> ∅)
        (fun _ => Exited 0 (String " " (String (ascii_of_nat 10) EmptyString)))
        (Ok tt) (Ok tt) (fun audience => Ok ("token-for-" +:+ audience)).

(** The CLI exits with status 0 and prints the token between a no-break
    space (U+00A0) and the final newline. *)
Definition env_padded_output : Env :=
  mkEnv (<["AGENT_SERVICE_ACCOUNT" := "agent@lumos.iam.gserviceaccount.com"]> ∅)
        (fun _ => Exited 0 (String (ascii_of_nat 160) EmptyString
                              +:+ "cli-token"
                              +:+ String (ascii_of_nat 10) EmptyString))
        (Ok tt) (Ok tt) (fun audience => Ok ("token-for-" +:+ audience)).

(** No impersonation; the ambient credentials mint a token that names its
    audience. *)
Definition env_ambient : Env :=
  mkEnv ∅ (fun _ => Exited 1 EmptyString)
        (Ok tt) (Ok tt) (fun audience => Ok ("token-for-" +:+ audience)).

(** No impersonation; the token endpoint is unreachable. *)
Definition env_network_down : Env :=
  mkEnv ∅ (fun _ => Exited 1 EmptyString)
        (Ok tt) (Ok tt)
        (fun _ => Raise (Exn (OtherException "TransportError")
                           "HTTPSConnectionPool: Max retries exceeded")).

Definition sample_globals : Globals :=
  mkGlobals "https://lumosdb.example.run.app/"
            "https://lumostrade.example.run.app".

(** Process environments for the modules that read their settings at
    import time. *)
Definition environ_two_origins : gmap string string :=
  <["ALLOWED_ORIGINS" := "https://a.example, https://b.example"]> ∅.
Definition environ_one_origin : gmap string string :=
  <["ALLOWED_ORIGINS" := "https://a.example"]> ∅.
Definition environ_tools : gmap string string :=
  <["TOOL_LUMOSTRADE_SERVICE_URL" := "https://lumostrade.example.run.app"]>
    (<["TOOL_LUMOSDB_SERVICE_URL" := "https://lumosdb.example.run.app/"]> ∅).
Definition environ_only_trade : gmap string string :=
  <["TOOL_LUMOSTRADE_SERVICE_URL" := "https://lumostrade.example.run.app"]> ∅.
Definition environ_only_db : gmap string string :=
  <["TOOL_LUMOSDB_SERVICE_URL" := "https://lumosdb.example.run.app/"]> ∅.
Definition environ_slash_url : gmap string string :=
  <["TOOL_LUMOSTRADE_LOCAL_PORT" := "9000"]>
    (<["TOOL_LUMOSTRADE_LOCAL_URL" := "//"]> ∅).
Definition environ_port_only : gmap string string :=
  <["TOOL_LUMOSTRADE_LOCAL_PORT" := "9000"]> ∅.

(** The ambient environment with another process environment. *)
Definition env_with (environ : gmap string string) : Env :=
  mkEnv environ (spawn env_ambient) (google_auth_default env_ambient)
        (credentials_refresh env_ambient) (fetch_id_token env_ambient).

End ConfigSpec.

(** * Properties of the retry coordinator *)

Section Retry.
Import ChatAgent RetrySpec.

(** The float literals are the doubles Python reads them as: the
    correctly rounded quotients and the exact small integers. *)
Lemma literals_are_doubles :
  SFdiv Py.prec Py.emax (Py.float_of_int 1) (Py.float_of_int 10) = f0_1 ∧
  SFdiv Py.prec Py.emax (Py.float_of_int 2) (Py.float_of_int 10) = f0_2 ∧
  SFdiv Py.prec Py.emax (Py.float_of_int 4) (Py.float_of_int 10) = f0_4 ∧
  Py.float_of_int 2 = f2_0 ∧
  Py.float_of_int 10 = f10_0.
Proof. repeat split; vm_compute; reflexivity. Qed.

Lemma keys_distinct (r : LlmRequest) : retry_key r ≠ delay_key r.
Proof. unfold retry_key, delay_key. intros H. discriminate H. Qed.

Lemma backoff_capped (n : nat) : backoff (7 + n) = RETRY_MAX_DELAY.
Proof.
  induction n as [|n IH].
  - vm_compute. reflexivity.
  - replace (7 + S n)%nat with (S (7 + n)) by lia.
    cbn [backoff]. rewrite IH. vm_compute. reflexivity.
Qed.

Lemma backoff_cases (n : nat) :
  (n < 7)%nat ∨ backoff n = RETRY_MAX_DELAY.
Proof.
  destruct (decide (n < 7)%nat) as [|Hge]; [by left|right].
  replace n with (7 + (n - 7))%nat by lia. apply backoff_capped.
Qed.

Lemma backoff_mono (n : nat) :
  Py.fleb (backoff n) (backoff (S n)) = true.
Proof.
  destruct (backoff_cases n) as [Hlt|Hcap].
  - do 7 (destruct n as [|n]; [vm_compute; reflexivity|]). lia.
  - cbn [backoff]. rewrite Hcap. vm_compute. reflexivity.
Qed.

Lemma backoff_bounded (n : nat) :
  Py.fleb (backoff n) RETRY_MAX_DELAY = true.
Proof.
  destruct (backoff_cases n) as [Hlt|Hcap].
  - do 7 (destruct n as [|n]; [vm_compute; reflexivity|]). lia.
  - rewrite Hcap. vm_compute. reflexivity.
Qed.

Lemma backoff_sleeps (n : nat) :
  Py.sleep_check (PyFloat (backoff n)) = Ok tt.
Proof.
  destruct (backoff_cases n) as [Hlt|Hcap].
  - do 7 (destruct n as [|n]; [vm_compute; reflexivity|]). lia.
  - rewrite Hcap. vm_compute. reflexivity.
Qed.

(** *** One call, path by path *)

Ltac open_call r :=
  pose proof (keys_distinct r);
  unfold retry_on_error_callback; cbv zeta;
  change ("retry_count_" +:+ pretty (py_id r)) with (retry_key r) in *;
  change ("retry_delay_" +:+ pretty (py_id r)) with (delay_key r) in *;
  unfold bind, state_contains, state_get, state_set, state_del,
    time_sleep, lift, ret.

Ltac map_lookups :=
  repeat first
    [ rewrite lookup_insert_eq
    | rewrite lookup_delete_eq
    | rewrite lookup_insert_ne by done
    | rewrite lookup_delete_ne by done ].

(** First failure of a request: the entry is created (lines 38-40) and
    the retry path runs on it. *)
Lemma call_created (r : LlmRequest) (e x : option pyexn) (w : World) :
  state w !! retry_key r = None →
  retry_on_error_callback r e x w =
    (mkWorld
       (<[delay_key r := PyFloat (backoff 1)]>
          (<[retry_key r := PyInt 1]>
             (<[delay_key r := PyFloat RETRY_INITIAL_DELAY]>
                (<[retry_key r := PyInt 0]> (state w)))))
       (slept w ++ [PyFloat RETRY_INITIAL_DELAY]),
     Ok PyNone).
Proof.
  intros Habs. open_call r.
  rewrite Habs.
  rewrite bool_decide_eq_false_2 by (intros [? ?]; discriminate).
  cbn [negb state slept]. simplify_map_eq. reflexivity.
Qed.

(** A later failure with budget left (lines 52-63). *)
Lemma call_retry (r : LlmRequest) (e x : option pyexn) (w : World)
    (c : Z) (d : spec_float) :
  state w !! retry_key r = Some (PyInt c) →
  state w !! delay_key r = Some (PyFloat d) →
  c < RETRY_MAX_ATTEMPTS - 1 →
  Py.sleep_check (PyFloat d) = Ok tt →
  retry_on_error_callback r e x w =
    (mkWorld
       (<[delay_key r :=
            PyFloat (Py.min (Py.fmul d RETRY_MULTIPLIER) RETRY_MAX_DELAY)]>
          (<[retry_key r := PyInt (c + 1)]> (state w)))
       (slept w ++ [PyFloat d]),
     Ok PyNone).
Proof.
  intros Hc Hd Hlt Hsleep. open_call r.
  rewrite Hc.
  rewrite bool_decide_eq_true_2 by (eexists; reflexivity).
  cbn [negb]. rewrite Hc, Hd.
  unfold Py.ge_int. rewrite (proj2 (Z.leb_gt _ _) Hlt).
  unfold Py.add_int, Py.mul_float. cbn [state slept].
  rewrite Hsleep. reflexivity.
Qed.

(** A failure once the budget is used up (lines 46-50). *)
Lemma call_exhausted (r : LlmRequest) (e x : option pyexn) (w : World)
    (cv dv : pyval) :
  state w !! retry_key r = Some cv →
  state w !! delay_key r = Some dv →
  Py.ge_int cv (RETRY_MAX_ATTEMPTS - 1) = Ok true →
  retry_on_error_callback r e x w =
    (mkWorld (delete (delay_key r) (delete (retry_key r) (state w))) (slept w),
     Ok PyNone).
Proof.
  intros Hc Hd Hge. open_call r.
  rewrite Hc.
  rewrite bool_decide_eq_true_2 by (eexists; reflexivity).
  cbn [negb]. rewrite Hc, Hd, Hge. rewrite Hc. cbn [state slept].
  rewrite lookup_delete_ne by done. rewrite Hd. reflexivity.
Qed.

(** A stored count without a stored delay: line 43 raises [KeyError]
    and nothing has been changed. *)
Lemma call_missing_delay (r : LlmRequest) (e x : option pyexn) (w : World)
    (cv : pyval) :
  state w !! retry_key r = Some cv →
  state w !! delay_key r = None →
  retry_on_error_callback r e x w =
    (w, Raise (Exn KeyError ("'" +:+ delay_key r +:+ "'"))).
Proof.
  intros Hc Hd. open_call r.
  rewrite Hc.
  rewrite bool_decide_eq_true_2 by (eexists; reflexivity).
  cbn [negb]. rewrite Hc, Hd. reflexivity.
Qed.

(** Both entries stored, whatever they hold: every path of lines 42-63. *)
Lemma call_present (r : LlmRequest) (e x : option pyexn) (w : World)
    (cv dv : pyval) :
  state w !! retry_key r = Some cv →
  state w !! delay_key r = Some dv →
  retry_on_error_callback r e x w =
    match Py.ge_int cv (RETRY_MAX_ATTEMPTS - 1) with
    | Raise ex => (w, Raise ex)
    | Ok true =>
        (mkWorld (delete (delay_key r) (delete (retry_key r) (state w)))
           (slept w), Ok PyNone)
    | Ok false =>
        match Py.add_int cv 1 with
        | Raise ex => (w, Raise ex)
        | Ok v =>
            match Py.sleep_check dv with
            | Raise ex =>
                (mkWorld (<[retry_key r := v]> (state w)) (slept w), Raise ex)
            | Ok _ =>
                match Py.mul_float dv RETRY_MULTIPLIER with
                | Raise ex =>
                    (mkWorld (<[retry_key r := v]> (state w))
                       (slept w ++ [dv]), Raise ex)
                | Ok product =>
                    (mkWorld
                       (<[delay_key r :=
                            PyFloat (Py.min product RETRY_MAX_DELAY)]>
                          (<[retry_key r := v]> (state w)))
                       (slept w ++ [dv]), Ok PyNone)
                end
            end
        end
    end.
Proof.
  intros Hc Hd. open_call r.
  rewrite Hc.
  rewrite bool_decide_eq_true_2 by (eexists; reflexivity).
  cbn [negb]. rewrite Hc, Hd.
  destruct (Py.ge_int cv (RETRY_MAX_ATTEMPTS - 1)) as [[|]|ex];
    [| |reflexivity].
  - rewrite Hc. cbn [state slept].
    rewrite lookup_delete_ne by done. rewrite Hd. reflexivity.
  - destruct (Py.add_int cv 1) as [v|ex]; [|reflexivity].
    cbn [state slept].
    destruct (Py.sleep_check dv) as [[]|ex]; [|reflexivity].
    destruct (Py.mul_float dv RETRY_MULTIPLIER) as [product|ex];
      reflexivity.
Qed.

Ltac call_paths cv dv :=
  destruct (Py.ge_int cv (RETRY_MAX_ATTEMPTS - 1)) as [[|]|?];
  [ | destruct (Py.add_int cv 1) as [?|?];
      [ destruct (Py.sleep_check dv) as [[]|?];
        [ destruct (Py.mul_float dv RETRY_MULTIPLIER) as [?|?] | ] | ] | ].

(** The three shapes of a starting state. *)
Lemma state_cases (r : LlmRequest) (w : World) :
  state w !! retry_key r = None ∨
  (∃ cv, state w !! retry_key r = Some cv ∧
         state w !! delay_key r = None) ∨
  (∃ cv dv, state w !! retry_key r = Some cv ∧
            state w !! delay_key r = Some dv).
Proof.
  destruct (state w !! retry_key r) as [cv|]; [|by left].
  destruct (state w !! delay_key r) as [dv|]; right; [right|left]; eauto.
Qed.

(** *** The invariant of the coordinator *)

Lemma ge_int_exhausted (c : Z) :
  RETRY_MAX_ATTEMPTS - 1 <= c →
  Py.ge_int (PyInt c) (RETRY_MAX_ATTEMPTS - 1) = Ok true.
Proof. intros Hc. unfold Py.ge_int. by rewrite (proj2 (Z.leb_le _ _) Hc). Qed.

Lemma retry_step_intro (r : LlmRequest) (w : World) (c : Z) (n : nat)
    (s : gmap string pyval) :
  current r w c (backoff n) →
  c < RETRY_MAX_ATTEMPTS - 1 →
  retry_step r w
    (mkWorld
       (<[delay_key r := PyFloat (backoff (S n))]>
          (<[retry_key r := PyInt (c + 1)]> s))
       (slept w ++ [PyFloat (backoff n)])).
Proof.
  pose proof (keys_distinct r) as Hne.
  intros Hcur Hlt. exists c, (backoff n). cbn [state slept].
  split; [exact Hcur|]. split; [exact Hlt|].
  split; [by simplify_map_eq|]. split; [reflexivity|].
  split; [by simplify_map_eq|].
  split; [exact (backoff_mono n) | exact (backoff_bounded (S n))].
Qed.

Lemma exhaust_step_intro (r : LlmRequest) (w : World) (c : Z)
    (d : spec_float) (s : gmap string pyval) :
  current r w c d →
  RETRY_MAX_ATTEMPTS - 1 <= c →
  exhaust_step r w
    (mkWorld (delete (delay_key r) (delete (retry_key r) s)) (slept w)).
Proof.
  pose proof (keys_distinct r) as Hne.
  intros Hcur Hle. exists c, d. cbn [state slept].
  split; [exact Hcur|]. split; [exact Hle|].
  split; [by simplify_map_eq|]. split; [by simplify_map_eq|]. reflexivity.
Qed.

Lemma step_coordinated (r : LlmRequest) (e x : option pyexn) (w : World) :
  coordinated r w →
  snd (retry_on_error_callback r e x w) = Ok PyNone ∧
  (retry_step r w (fst (retry_on_error_callback r e x w)) ∨
   exhaust_step r w (fst (retry_on_error_callback r e x w))) ∧
  coordinated r (fst (retry_on_error_callback r e x w)).
Proof.
  pose proof (keys_distinct r) as Hne.
  intros [Habs | (c & n & Hc & Hd)].
  - rewrite (call_created r e x w Habs). cbn [fst snd].
    split; [reflexivity | split].
    + left. apply (retry_step_intro r w 0 0); [by left | reflexivity].
    + right. exists 1, 1%nat. cbn [state]. by simplify_map_eq.
  - destruct (decide (c < RETRY_MAX_ATTEMPTS - 1)) as [Hlt | Hge].
    + rewrite (call_retry r e x w c (backoff n) Hc Hd Hlt (backoff_sleeps n)).
      cbn [fst snd]. split; [reflexivity | split].
      * left. apply (retry_step_intro r w c n); [by right | exact Hlt].
      * right. exists (c + 1), (S n). cbn [state backoff].
        by simplify_map_eq.
    + assert (RETRY_MAX_ATTEMPTS - 1 <= c) as Hle by lia.
      rewrite (call_exhausted r e x w _ _ Hc Hd (ge_int_exhausted c Hle)).
      cbn [fst snd]. split; [reflexivity | split].
      * right. apply (exhaust_step_intro r w c (backoff n)); [by right | exact Hle].
      * left. cbn [state]. by simplify_map_eq.
Qed.

Lemma run_steps_ok (errs : list (option pyexn * option pyexn))
    (r : LlmRequest) (w : World) :
  coordinated r w → steps_ok r w (run errs r w).
Proof.
  revert w. induction errs as [| [e x] rest IH]; intros w Hw.
  - exact I.
  - cbn [run steps_ok].
    destruct (step_coordinated r e x w Hw) as (Hret & Hstep & Hinv).
    destruct (retry_on_error_callback r e x w) as [w' v].
    cbn [fst snd] in *. auto.
Qed.

(** A step is of one kind only. *)
Lemma retry_step_not_exhaust (r : LlmRequest) (w w' : World) :
  retry_step r w w' → ¬ exhaust_step r w w'.
Proof.
  intros (c & d & Hcur & Hlt & _) (c' & d' & Hcur' & Hge & _).
  destruct Hcur as [(Ha & -> & _) | (Hc & _)];
    destruct Hcur' as [(Ha' & -> & _) | (Hc' & _)];
    unfold RETRY_MAX_ATTEMPTS in *; simplify_eq; lia.
Qed.

(** *** The stored delays of a run without exhaustion *)

Lemma backoff_seq_nondecreasing (n k : nat) :
  nondecreasing (map backoff (seq n k)).
Proof.
  revert n. induction k as [|k IH]; intros n; [exact I|].
  destruct k as [|k]; [exact I|].
  change (nondecreasing (backoff n :: map backoff (seq (S n) (S k)))).
  specialize (IH (S n)). cbn [seq map] in *. cbn [nondecreasing].
  split; [apply backoff_mono | exact IH].
Qed.

Lemma backoff_seq_bounded (n k : nat) :
  Forall (fun d => Py.fleb d RETRY_MAX_DELAY = true) (map backoff (seq n k)).
Proof.
  revert n. induction k as [|k IH]; intros n; cbn [seq map].
  - apply Forall_nil_2.
  - apply Forall_cons_2; [apply backoff_bounded | apply IH].
Qed.

Lemma run_stored_delays (errs : list (option pyexn * option pyexn))
    (r : LlmRequest) (w : World) (n : nat) :
  indexed r w n →
  not_exhausted r (run errs r w) →
  stored_delays r (run errs r w) =
    map (fun d => Some (PyFloat d)) (map backoff (seq (S n) (length errs))).
Proof.
  pose proof (keys_distinct r) as Hne.
  revert w n. induction errs as [| [e x] rest IH]; intros w n Hw Hlive;
    [reflexivity|].
  cbn [run length seq map stored_delays] in *.
  unfold not_exhausted in Hlive. apply Forall_cons in Hlive.
  destruct Hlive as [Hhd Htl]. revert Hhd Htl.
  destruct Hw as [[Ha ->] | (c & Hc & Hd)].
  - rewrite (call_created r e x w Ha). cbn [fst]. intros _ Htl.
    f_equal.
    + unfold stored_delay. cbn [state]. by map_lookups.
    + apply IH; [|exact Htl]. right. exists 1. cbn [state].
      split; map_lookups; reflexivity.
  - destruct (decide (c < RETRY_MAX_ATTEMPTS - 1)) as [Hlt | Hge].
    + rewrite (call_retry r e x w c (backoff n) Hc Hd Hlt (backoff_sleeps n)).
      cbn [fst]. intros _ Htl. f_equal.
      * unfold stored_delay. cbn [state]. by map_lookups.
      * apply IH; [|exact Htl]. right. exists (c + 1). cbn [state].
        split; map_lookups; reflexivity.
    + assert (RETRY_MAX_ATTEMPTS - 1 <= c) as Hle by lia.
      rewrite (call_exhausted r e x w _ _ Hc Hd (ge_int_exhausted c Hle)).
      cbn [fst state]. map_lookups. intros [? ?]. discriminate.
Qed.

(** *** The stored delays of any run *)

Lemma step_delays (r : LlmRequest) (e x : option pyexn) (w : World) :
  coordinated r w →
  coordinated r (fst (retry_on_error_callback r e x w)) ∧
  stored_delay r (fst (retry_on_error_callback r e x w))
    = live_delay r (fst (retry_on_error_callback r e x w)) ∧
  delay_le (live_delay r w)
    (live_delay r (fst (retry_on_error_callback r e x w))) ∧
  delay_bounded (live_delay r (fst (retry_on_error_callback r e x w))).
Proof.
  pose proof (keys_distinct r) as Hne.
  unfold stored_delay, live_delay.
  intros [Habs | (c & n & Hc & Hd)].
  - rewrite (call_created r e x w Habs). cbn [fst state]. rewrite Habs.
    map_lookups. split; [|split; [reflexivity|split]].
    + right. exists 1, 1%nat. cbn [state]. split; map_lookups; reflexivity.
    + exact I.
    + exact (backoff_bounded 1).
  - destruct (decide (c < RETRY_MAX_ATTEMPTS - 1)) as [Hlt | Hge].
    + rewrite (call_retry r e x w c (backoff n) Hc Hd Hlt (backoff_sleeps n)).
      cbn [fst state]. rewrite Hc, Hd. map_lookups.
      split; [|split; [reflexivity|split]].
      * right. exists (c + 1), (S n). cbn [state]. split; map_lookups; reflexivity.
      * exact (backoff_mono n).
      * exact (backoff_bounded (S n)).
    + assert (RETRY_MAX_ATTEMPTS - 1 <= c) as Hle by lia.
      rewrite (call_exhausted r e x w _ _ Hc Hd (ge_int_exhausted c Hle)).
      cbn [fst state]. rewrite Hc, Hd. map_lookups.
      split; [|split; [reflexivity|split]].
      * left. cbn [state]. by map_lookups.
      * exact I.
      * exact I.
Qed.

Lemma run_delays_ok (errs : list (option pyexn * option pyexn))
    (r : LlmRequest) (w : World) :
  coordinated r w →
  never_decreases (live_delay r w :: stored_delays r (run errs r w)) ∧
  Forall delay_bounded (stored_delays r (run errs r w)).
Proof.
  revert w. induction errs as [| [e x] rest IH]; intros w Hw.
  - cbn [run stored_delays map never_decreases]. split; [done|].
    apply Forall_nil_2.
  - destruct (step_delays r e x w Hw) as (Hw' & Hst & Hle & Hb).
    destruct (IH _ Hw') as [Hnd Hbd].
    cbn [run stored_delays map]. fold (stored_delays r).
    rewrite Hst. split.
    + cbn [never_decreases] in *. split; [exact Hle | exact Hnd].
    + apply Forall_cons_2; [exact Hb | exact Hbd].
Qed.

(** *** The specified properties *)

(** C1, as amended. Under the default configuration, a request that
    keeps failing gets exactly two retry steps and then the exhaustion
    step, and the two retry calls sleep 0.1 and then 0.2 seconds. Over
    any number of consecutive calls on the same state, every call returns
    after a retry step or an exhaustion step; a retry step increments the
    attempt count, sleeps the current delay [d] and stores
    [min(d * multiplier, maxDelay)], which is at least [d] and at most
    [RETRY_MAX_DELAY]. Every stored delay is at most [RETRY_MAX_DELAY],
    and from one call to the next the stored delay does not decrease
    while the entry exists: the sequence falls back to the start only
    where an exhaustion has removed the entry, so that between two
    exhaustions it is non-decreasing. *)
Theorem C1_default_backoff (r : LlmRequest) (w : World) :
  (state w !! retry_key r = None →
   ∀ e1 x1 e2 x2 e3 x3 : option pyexn,
   ∃ w1 w2 w3 : World,
     run [(e1, x1); (e2, x2); (e3, x3)] r w =
       [(w1, Ok PyNone); (w2, Ok PyNone); (w3, Ok PyNone)] ∧
     retry_step r w w1 ∧ retry_step r w1 w2 ∧ exhaust_step r w2 w3 ∧
     slept w3 = (slept w ++ [PyFloat f0_1; PyFloat f0_2])%list) ∧
  (coordinated r w →
   ∀ errs : list (option pyexn * option pyexn),
     steps_ok r w (run errs r w) ∧
     never_decreases (stored_delays r (run errs r w)) ∧
     Forall delay_bounded (stored_delays r (run errs r w)) ∧
     (not_exhausted r (run errs r w) →
      ∃ ds : list spec_float,
        stored_delays r (run errs r w) = map (fun d => Some (PyFloat d)) ds ∧
        nondecreasing ds ∧
        Forall (fun d => Py.fleb d RETRY_MAX_DELAY = true) ds)).
Proof.
  pose proof (keys_distinct r) as Hne.
  split.
  2:{ intros Hw errs. split; [by apply run_steps_ok|].
      destruct (run_delays_ok errs r w Hw) as [Hnd Hbd].
      split; [exact (proj2 Hnd)|]. split; [exact Hbd|].
      intros Hlive. assert (∃ n, indexed r w n) as [n Hn].
      { destruct Hw as [Ha | (c & n & Hc & Hd)];
          [exists 0%nat; by left | exists n; right; eauto]. }
      exists (map backoff (seq (S n) (length errs))).
      split; [by apply run_stored_delays|].
      split; [apply backoff_seq_nondecreasing | apply backoff_seq_bounded]. }
  intros Habs e1 x1 e2 x2 e3 x3. cbn [run].
  rewrite (call_created r e1 x1 w Habs). cbn [fst].
  match goal with |- context [retry_on_error_callback r e2 x2 ?v] =>
    set (w1 := v) end.
  assert (state w1 !! retry_key r = Some (PyInt 1)) as Hc1
    by (subst w1; cbn [state]; map_lookups; reflexivity).
  assert (state w1 !! delay_key r = Some (PyFloat (backoff 1))) as Hd1
    by (subst w1; cbn [state]; map_lookups; reflexivity).
  rewrite (call_retry r e2 x2 w1 1 (backoff 1) Hc1 Hd1 eq_refl
             (backoff_sleeps 1)). cbn [fst].
  match goal with |- context [retry_on_error_callback r e3 x3 ?v] =>
    set (w2 := v) end.
  assert (state w2 !! retry_key r = Some (PyInt 2)) as Hc2
    by (subst w2; cbn [state]; map_lookups; reflexivity).
  assert (state w2 !! delay_key r = Some (PyFloat (backoff 2))) as Hd2
    by (subst w2; cbn [state]; map_lookups; reflexivity).
  rewrite (call_exhausted r e3 x3 w2 _ _ Hc2 Hd2 eq_refl).
  eexists w1, w2, _. split; [reflexivity|].
  split; [apply (retry_step_intro r w 0 0); [by left | reflexivity]|].
  split; [apply (retry_step_intro r w1 1 1); [by right | reflexivity]|].
  split; [apply (exhaust_step_intro r w2 2 (backoff 2)); [by right | reflexivity]|].
  subst w2 w1. cbn [slept]. rewrite <- app_assoc. reflexivity.
Qed.

(** C1, as stated, fails over four consecutive failures of a fresh
    request: the delays stored after the calls are 0.2, 0.4, none (the
    third call removes the entry) and 0.2 again, so the sequence of the
    stored delays goes down from 0.4 to 0.2. *)
Lemma C1_stored_delay_restarts_after_exhaustion :
  stored_delays request7 (run four_failures request7 world_fresh)
    = [ Some (PyFloat f0_2); Some (PyFloat f0_4); None; Some (PyFloat f0_2) ] ∧
  Py.fleb f0_4 f0_2 = false ∧
  ¬ nondecreasing [f0_2; f0_4; f0_2].
Proof.
  split; [vm_compute; reflexivity|].
  split; [vm_compute; reflexivity|].
  cbn [nondecreasing]. intros (_ & H & _). vm_compute in H. discriminate.
Qed.

(** C2. The return value does not tell the two outcomes apart: every
    call that returns, returns [None], on the retry path (line 63) as on
    the exhaustion path (line 50). For request 7 on an empty state the
    first call takes the retry path and the third the exhaustion path,
    and both return [None]. *)
Theorem C2_both_paths_return_none :
  (∀ (r : LlmRequest) (e x : option pyexn) (w : World),
     match snd (retry_on_error_callback r e x w) with
     | Ok v => v = PyNone
     | Raise _ => True
     end) ∧
  (let r := mkRequest 7 in
   let w0 := mkWorld ∅ [] in
   let o1 := retry_on_error_callback r None None w0 in
   let o2 := retry_on_error_callback r None None (fst o1) in
   let o3 := retry_on_error_callback r None None (fst o2) in
   snd o1 = Ok PyNone ∧ slept (fst o1) = [PyFloat f0_1] ∧
   snd o3 = Ok PyNone ∧ slept (fst o3) = slept (fst o2) ∧
   state (fst o3) !! retry_key r = None).
Proof.
  split.
  - intros r e x w.
    destruct (state_cases r w) as [Ha | [(cv & Hc & Hd) | (cv & dv & Hc & Hd)]].
    + by rewrite (call_created r e x w Ha).
    + by rewrite (call_missing_delay r e x w cv Hc Hd).
    + rewrite (call_present r e x w cv dv Hc Hd).
      destruct (Py.ge_int cv (RETRY_MAX_ATTEMPTS - 1)) as [[|]|ex];
        [done| |done].
      destruct (Py.add_int cv 1) as [v|ex]; [|done].
      destruct (Py.sleep_check dv) as [[]|ex]; [|done].
      by destruct (Py.mul_float dv RETRY_MULTIPLIER).
  - vm_compute. done.
Qed.

(** C4. When the stored attempt count has reached
    [RETRY_MAX_ATTEMPTS - 1], a call removes the retry-count entry and
    the delay entry, sleeps nothing and returns [None]; the next failure
    under the same keys starts again from attempt 0 and sleeps the
    initial delay. *)
Theorem C4_exhaustion_clears_state (r : LlmRequest) (w : World)
    (cv dv : pyval) :
  state w !! retry_key r = Some cv →
  state w !! delay_key r = Some dv →
  Py.ge_int cv (RETRY_MAX_ATTEMPTS - 1) = Ok true →
  ∀ e x : option pyexn,
  ∃ w' : World,
    retry_on_error_callback r e x w = (w', Ok PyNone) ∧
    state w' !! retry_key r = None ∧
    state w' !! delay_key r = None ∧
    slept w' = slept w ∧
    ∀ e' x' : option pyexn,
    ∃ w'' : World,
      retry_on_error_callback r e' x' w' = (w'', Ok PyNone) ∧
      current r w' 0 RETRY_INITIAL_DELAY ∧
      retry_step r w' w'' ∧
      state w'' !! retry_key r = Some (PyInt 1) ∧
      slept w'' = (slept w' ++ [PyFloat RETRY_INITIAL_DELAY])%list.
Proof.
  pose proof (keys_distinct r) as Hne.
  intros Hc Hd Hge e x.
  rewrite (call_exhausted r e x w cv dv Hc Hd Hge).
  eexists. split; [reflexivity|]. cbn [state slept].
  assert (delete (delay_key r) (delete (retry_key r) (state w))
            !! retry_key r = None) as Habs by (by simplify_map_eq).
  split; [exact Habs|]. split; [by simplify_map_eq|].
  split; [reflexivity|]. intros e' x'.
  match goal with |- context [retry_on_error_callback r e' x' ?v] =>
    set (w' := v) end.
  rewrite (call_created r e' x' w' Habs).
  eexists. split; [reflexivity|].
  split; [by left|].
  split; [apply (retry_step_intro r w' 0 0); [by left | reflexivity]|].
  cbn [state slept]. split; [by simplify_map_eq | reflexivity].
Qed.

(** C8. The error arguments do not influence a call: result, state
    update and sleeps are the same for any two pairs of them. *)
Theorem C8_error_arguments_unused (r : LlmRequest) (w : World)
    (error1 exception1 error2 exception2 : option pyexn) :
  retry_on_error_callback r error1 exception1 w =
  retry_on_error_callback r error2 exception2 w.
Proof. reflexivity. Qed.

(** C9, as amended. A call changes no entry of the state other than the
    two keys of the request, whatever the state holds and also when the
    call raises; and when the delay entry is present whenever the
    retry-count entry is, after the call the two keys are both present
    or both absent. *)
Theorem C9_frame (r : LlmRequest) (e x : option pyexn) (w : World) :
  (∀ k : string,
     k ≠ retry_key r → k ≠ delay_key r →
     state (fst (retry_on_error_callback r e x w)) !! k = state w !! k) ∧
  ((is_Some (state w !! retry_key r) → is_Some (state w !! delay_key r)) →
   paired r (fst (retry_on_error_callback r e x w))).
Proof.
  pose proof (keys_distinct r) as Hne. unfold paired.
  destruct (state_cases r w) as [Ha | [(cv & Hc & Hd) | (cv & dv & Hc & Hd)]].
  - rewrite (call_created r e x w Ha). cbn [fst state]. split.
    + intros k Hk1 Hk2. by map_lookups.
    + intros _. map_lookups. split; intros _; by eexists.
  - rewrite (call_missing_delay r e x w cv Hc Hd). cbn [fst]. split.
    + reflexivity.
    + rewrite Hc, Hd. intros Hpair. split; [exact Hpair|].
      intros [? ?]; discriminate.
  - rewrite (call_present r e x w cv dv Hc Hd). split.
    + intros k Hk1 Hk2. call_paths cv dv; cbn [fst state]; by map_lookups.
    + intros _. call_paths cv dv; cbn [fst state]; map_lookups;
        rewrite ?Hc, ?Hd; split; intros Hs;
        first [exact Hs | by eexists].
Qed.

(** C9, as stated, fails on a state that holds a retry count and no
    delay for the request: line 43 raises [KeyError], the state is left
    as it was, and the retry-count key is present without the delay
    key. *)
Lemma C9_count_without_delay_stays_unpaired :
  state (fst (retry_on_error_callback request7 None None world_count_only))
    !! retry_key request7 = Some (PyInt 0) ∧
  state (fst (retry_on_error_callback request7 None None world_count_only))
    !! delay_key request7 = None ∧
  ¬ paired request7
      (fst (retry_on_error_callback request7 None None world_count_only)).
Proof.
  assert (state (fst (retry_on_error_callback request7 None None
                        world_count_only)) !! retry_key request7
          = Some (PyInt 0)) as Hc by (vm_compute; reflexivity).
  assert (state (fst (retry_on_error_callback request7 None None
                        world_count_only)) !! delay_key request7
          = None) as Hd by (vm_compute; reflexivity).
  split; [exact Hc | split; [exact Hd|]].
  unfold paired. rewrite Hc, Hd. intros [Hp _].
  destruct Hp as [? ?]; [by eexists | discriminate].
Qed.

(** C10. The copies of [retry_on_error_callback] and of
    [rate_limit_callback] in LumosChatAgent/agent.py,
    LumosChatAgent/GoogleTools.py and LumosConjureAgent/agent.py give
    the same result, the same state and the same sleeps on every
    input. *)
Theorem C10_copies_agree (r : LlmRequest) (e x : option pyexn) (w : World) :
  ChatAgent.retry_on_error_callback r e x w =
    GoogleTools.retry_on_error_callback r e x w ∧
  ChatAgent.retry_on_error_callback r e x w =
    ConjureAgent.retry_on_error_callback r e x w ∧
  ChatAgent.rate_limit_callback r w = GoogleTools.rate_limit_callback r w ∧
  ChatAgent.rate_limit_callback r w = ConjureAgent.rate_limit_callback r w.
Proof. repeat split; reflexivity. Qed.

(** *** The theorems at concrete inputs *)

Lemma C1_default_backoff_witness :
  (∀ e1 x1 e2 x2 e3 x3 : option pyexn,
   ∃ w1 w2 w3 : World,
     run [(e1, x1); (e2, x2); (e3, x3)] request7 world_fresh =
       [(w1, Ok PyNone); (w2, Ok PyNone); (w3, Ok PyNone)] ∧
     retry_step request7 world_fresh w1 ∧ retry_step request7 w1 w2 ∧
     exhaust_step request7 w2 w3 ∧
     slept w3 = (slept world_fresh ++ [PyFloat f0_1; PyFloat f0_2])%list) ∧
  steps_ok request7 world_fresh (run four_failures request7 world_fresh) ∧
  never_decreases
    (stored_delays request7 (run four_failures request7 world_fresh)) ∧
  Forall delay_bounded
    (stored_delays request7 (run four_failures request7 world_fresh)) ∧
  ∃ ds : list spec_float,
    stored_delays request7 (run two_failures request7 world_fresh)
      = map (fun d => Some (PyFloat d)) ds ∧
    nondecreasing ds ∧
    Forall (fun d => Py.fleb d RETRY_MAX_DELAY = true) ds.
Proof.
  destruct (C1_default_backoff request7 world_fresh) as [Hfresh Hany].
  assert (coordinated request7 world_fresh) as Hw by (left; reflexivity).
  destruct (Hany Hw four_failures) as (Hsteps & Hnever & Hbound & _).
  destruct (Hany Hw two_failures) as (_ & _ & _ & Hlive).
  split; [apply Hfresh; reflexivity|].
  split; [exact Hsteps|]. split; [exact Hnever|]. split; [exact Hbound|].
  apply Hlive. vm_compute. repeat constructor; eexists; reflexivity.
Defined.

Lemma C4_exhaustion_clears_state_witness :
  ∃ w' : World,
    retry_on_error_callback request7 None None world_retried_twice
      = (w', Ok PyNone) ∧
    state w' !! retry_key request7 = None ∧
    state w' !! delay_key request7 = None ∧
    slept w' = slept world_retried_twice ∧
    ∀ e' x' : option pyexn,
    ∃ w'' : World,
      retry_on_error_callback request7 e' x' w' = (w'', Ok PyNone) ∧
      current request7 w' 0 RETRY_INITIAL_DELAY ∧
      retry_step request7 w' w'' ∧
      state w'' !! retry_key request7 = Some (PyInt 1) ∧
      slept w'' = (slept w' ++ [PyFloat RETRY_INITIAL_DELAY])%list.
Proof.
  apply (C4_exhaustion_clears_state request7 world_retried_twice
           (PyInt 2) (PyFloat f0_4)); reflexivity.
Defined.

Lemma C9_frame_witness :
  (∀ k : string,
     k ≠ retry_key request7 → k ≠ delay_key request7 →
     state (fst (retry_on_error_callback request7 None None
                   world_retried_twice)) !! k
     = state world_retried_twice !! k) ∧
  paired request7
    (fst (retry_on_error_callback request7 None None world_retried_twice)).
Proof.
  split.
  - apply (proj1 (C9_frame request7 None None world_retried_twice)).
  - apply (proj2 (C9_frame request7 None None world_retried_twice)).
    intros _. vm_compute. eexists. reflexivity.
Defined.

End Retry.

(** * Properties of the token helpers *)

Section Auth.
Import AuthHelper MyTools AuthSpec.





(** A non-zero exit of the identity CLI is caught at line 47 and the
    ambient path runs. *)
Lemma nonzero_exit_falls_through (env : Env) (audience_url sa out : string)
    (code : Z) :
  truthy (environ env !! "AGENT_SERVICE_ACCOUNT") = Some sa →
  spawn env (impersonation_argv sa audience_url) = Exited code out →
  code ≠ 0 →
  try_body env audience_url = default_path env audience_url.
Proof.
  intros Hsa Hrun Hcode. unfold try_body. rewrite Hsa.
  change [ "gcloud"; "auth"; "print-identity-token";
           "--impersonate-service-account=" +:+ sa;
           "--audiences=" +:+ audience_url ]
    with (impersonation_argv sa audience_url).
  unfold subprocess_run. rewrite Hrun.
  destruct code; [done | reflexivity | reflexivity].
Qed.

(** Without impersonation the body of the [try] is the ambient path. *)
Lemma try_body_ambient (env : Env) (audience_url : string) :
  truthy (environ env !! "AGENT_SERVICE_ACCOUNT") = None →
  try_body env audience_url = default_path env audience_url.
Proof. intros Hsa. unfold try_body. by rewrite Hsa. Qed.

(** C3. With impersonation configured and the CLI binary missing,
    [subprocess.run] raises [FileNotFoundError], which line 47 does not
    catch: the call fails with the generic [RuntimeError] although the
    ambient path would have minted a token. *)
Theorem C3_missing_cli_is_not_fallen_through :
  truthy (environ env_missing_cli !! "AGENT_SERVICE_ACCOUNT")
    = Some "agent@lumos.iam.gserviceaccount.com" ∧
  default_path env_missing_cli "https://svc-a" = Ok "Bearer ambient-token" ∧
  get_id_token_for_service env_missing_cli "https://svc-a"
    = Raise (Exn RuntimeError FETCH_FAILED_MESSAGE).
Proof. repeat split; vm_compute; reflexivity. Qed.

(** C5. With no impersonation identity configured: when no ambient
    default credentials are found, the call fails with
    [DefaultCredentialsError] and a text that names the local and the
    Cloud Run configuration; when a step of the ambient path, credentials
    discovery, refresh or token request, fails with any other exception,
    the call fails with the generic [RuntimeError], a different error. *)
Theorem C5_ambient_failures (env : Env) (audience_url : string) :
  truthy (environ env !! "AGENT_SERVICE_ACCOUNT") = None →
  (∀ e : pyexn,
     google_auth_default env = Raise e →
     exn_cls e = DefaultCredentialsError →
     get_id_token_for_service env audience_url
       = Raise (Exn DefaultCredentialsError NO_ADC_MESSAGE)) ∧
  contains "If running locally" NO_ADC_MESSAGE = true ∧
  contains "If running in Cloud Run" NO_ADC_MESSAGE = true ∧
  (∀ e : pyexn,
     ambient_failure env audience_url e →
     exn_cls e ≠ DefaultCredentialsError →
     get_id_token_for_service env audience_url
       = Raise (Exn RuntimeError FETCH_FAILED_MESSAGE)) ∧
  (∀ e : pyexn,
     ambient_failure env audience_url e →
     exn_cls e = DefaultCredentialsError →
     get_id_token_for_service env audience_url
       = Raise (Exn DefaultCredentialsError NO_ADC_MESSAGE)) ∧
  Exn DefaultCredentialsError NO_ADC_MESSAGE
    ≠ Exn RuntimeError FETCH_FAILED_MESSAGE.
Proof.
  intros Hsa. unfold get_id_token_for_service.
  rewrite (try_body_ambient env audience_url Hsa).
  assert (∀ e, ambient_failure env audience_url e →
               default_path env audience_url = Raise e) as Hpath.
  { intros e [He | [[Hd He] | (Hd & Hr & He)]]; unfold default_path.
    - by rewrite He.
    - by rewrite Hd, He.
    - by rewrite Hd, Hr, He. }
  split; [|split; [|split; [|split; [|split]]]].
  - intros e He Hcls. rewrite (Hpath e) by (by left). by rewrite Hcls.
  - vm_compute. reflexivity.
  - vm_compute. reflexivity.
  - intros e He Hcls. rewrite (Hpath e He).
    destruct (exn_cls e); try reflexivity. done.
  - intros e He Hcls. rewrite (Hpath e He). by rewrite Hcls.
  - discriminate.
Qed.





(** C7. Whenever the token helper returns, its result is the text
    ["Bearer "] followed by the raw token: the stripped output of the
    identity CLI on the impersonation path, the fetched token on the
    ambient path. *)
Theorem C7_result_is_bearer_token (env : Env) (audience_url bearer : string) :
  get_id_token_for_service env audience_url = Ok bearer →
  ∃ token : string,
    bearer = "Bearer " +:+ token ∧
    ((∃ sa out : string,
        truthy (environ env !! "AGENT_SERVICE_ACCOUNT") = Some sa ∧
        subprocess_run env (impersonation_argv sa audience_url) = Ok out ∧
        token = strip out) ∨
     fetch_id_token env audience_url = Ok token).
Proof.
  assert (∀ b, default_path env audience_url = Ok b →
               ∃ token, b = "Bearer " +:+ token ∧
                        fetch_id_token env audience_url = Ok token) as Hdef.
  { intros b. unfold default_path.
    destruct (google_auth_default env); [|discriminate].
    destruct (credentials_refresh env); [|discriminate].
    destruct (fetch_id_token env audience_url) as [token|]; [|discriminate].
    cbn [bind_res]. intros [= <-]. by exists token. }
  unfold get_id_token_for_service.
  destruct (try_body env audience_url) as [b|exc] eqn:Hbody;
    [| by destruct (exn_class_eqb _ _)].
  intros [= ->]. revert Hbody. unfold try_body.
  destruct (truthy (environ env !! "AGENT_SERVICE_ACCOUNT")) as [sa|] eqn:Hsa.
  - change [ "gcloud"; "auth"; "print-identity-token";
             "--impersonate-service-account=" +:+ sa;
             "--audiences=" +:+ audience_url ]
      with (impersonation_argv sa audience_url).
    destruct (subprocess_run env (impersonation_argv sa audience_url))
      as [out|e] eqn:Hrun.
    + intros [= <-]. exists (strip out). split; [reflexivity|].
      left. by exists sa, out.
    + destruct (exn_class_eqb (exn_cls e) CalledProcessError);
        [|discriminate].
      intros Hb. destruct (Hdef _ Hb) as (token & -> & Hf).
      exists token. by split; [|right].
  - intros Hb. destruct (Hdef _ Hb) as (token & -> & Hf).
    exists token. by split; [|right].
Qed.

(** *** The theorems at concrete inputs *)

Lemma C5_ambient_failures_witness :
  get_id_token_for_service env_no_credentials "https://svc-a"
    = Raise (Exn DefaultCredentialsError NO_ADC_MESSAGE) ∧
  get_id_token_for_service env_discovery_broken "https://svc-a"
    = Raise (Exn RuntimeError FETCH_FAILED_MESSAGE) ∧
  get_id_token_for_service env_refresh_fails "https://svc-a"
    = Raise (Exn RuntimeError FETCH_FAILED_MESSAGE) ∧
  get_id_token_for_service env_fetch_fails "https://svc-a"
    = Raise (Exn RuntimeError FETCH_FAILED_MESSAGE) ∧
  contains "If running locally" NO_ADC_MESSAGE = true ∧
  contains "If running in Cloud Run" NO_ADC_MESSAGE = true ∧
  Exn DefaultCredentialsError NO_ADC_MESSAGE
    ≠ Exn RuntimeError FETCH_FAILED_MESSAGE.
Proof.
  destruct (C5_ambient_failures env_no_credentials "https://svc-a" eq_refl)
    as (Hnone & Hlocal & Hcloud & _ & Hdce & Hdiff).
  destruct (C5_ambient_failures env_discovery_broken "https://svc-a" eq_refl)
    as (_ & _ & _ & Hdiscovery & _).
  destruct (C5_ambient_failures env_refresh_fails "https://svc-a" eq_refl)
    as (_ & _ & _ & Hrefresh & _).
  destruct (C5_ambient_failures env_fetch_fails "https://svc-a" eq_refl)
    as (_ & _ & _ & Hfetch & _).
  split; [|split; [|split; [|split; [|split; [|split]]]]].
  - apply (Hnone (Exn DefaultCredentialsError
                    "Your default credentials were not found."));
      reflexivity.
  - apply (Hdiscovery transport_error); [left; reflexivity | discriminate].
  - apply (Hrefresh refresh_error);
      [right; left; split; reflexivity | discriminate].
  - apply (Hfetch transport_error);
      [right; right; repeat split; reflexivity | discriminate].
  - exact Hlocal.
  - exact Hcloud.
  - exact Hdiff.
Defined.


Lemma C7_result_is_bearer_token_witness :
  ∃ token : string,
    "Bearer cli-token" = "Bearer " +:+ token ∧
    ((∃ sa out : string,
        truthy (environ env_impersonating !! "AGENT_SERVICE_ACCOUNT") = Some sa ∧
        subprocess_run env_impersonating
          (impersonation_argv sa "https://svc-a") = Ok out ∧
        token = strip out) ∨
     fetch_id_token env_impersonating "https://svc-a" = Ok token).
Proof.
  apply (C7_result_is_bearer_token env_impersonating "https://svc-a"
           "Bearer cli-token").
  vm_compute. reflexivity.
Defined.

End Auth.

(** * Further properties of the retry coordinator *)

Section MoreRetry.
Import ChatAgent RetrySpec MoreSpec.

Ltac lookups :=
  repeat first
    [ rewrite lookup_insert_eq
    | rewrite lookup_delete_eq
    | rewrite lookup_insert_ne by done
    | rewrite lookup_delete_ne by done ].

Ltac paths cv dv :=
  destruct (Py.ge_int cv (RETRY_MAX_ATTEMPTS - 1)) as [[|]|?];
  [ | destruct (Py.add_int cv 1) as [?|?];
      [ destruct (Py.sleep_check dv) as [[]|?];
        [ destruct (Py.mul_float dv RETRY_MULTIPLIER) as [?|?] | ] | ] | ].

(** *** Keys of different requests *)

Lemma retry_key_inj (r r' : LlmRequest) :
  retry_key r = retry_key r' → py_id r = py_id r'.
Proof.
  unfold retry_key. intros H.
  apply (inj (String.append "retry_count_")) in H.
  by apply (inj pretty) in H.
Qed.

Lemma delay_key_inj (r r' : LlmRequest) :
  delay_key r = delay_key r' → py_id r = py_id r'.
Proof.
  unfold delay_key. intros H.
  apply (inj (String.append "retry_delay_")) in H.
  by apply (inj pretty) in H.
Qed.

Lemma retry_delay_distinct (r r' : LlmRequest) : retry_key r ≠ delay_key r'.
Proof. unfold retry_key, delay_key. intros H. discriminate H. Qed.

(** A call leaves every key other than its two alone. *)
Lemma call_frame (r : LlmRequest) (e x : option pyexn) (w : World)
    (k : string) :
  k ≠ retry_key r → k ≠ delay_key r →
  state (fst (retry_on_error_callback r e x w)) !! k = state w !! k.
Proof.
  intros Hk1 Hk2.
  destruct (state_cases r w) as [Ha | [(cv & Hc & Hd) | (cv & dv & Hc & Hd)]].
  - rewrite (call_created r e x w Ha). cbn [fst state]. by lookups.
  - by rewrite (call_missing_delay r e x w cv Hc Hd).
  - rewrite (call_present r e x w cv dv Hc Hd).
    paths cv dv; cbn [fst state]; by lookups.
Qed.

(** X1. A call for one request leaves the two entries of every request
    with another identity as they are. *)
Theorem X1_other_requests_untouched (r r' : LlmRequest)
    (e x : option pyexn) (w : World) :
  py_id r ≠ py_id r' →
  state (fst (retry_on_error_callback r e x w)) !! retry_key r'
    = state w !! retry_key r' ∧
  state (fst (retry_on_error_callback r e x w)) !! delay_key r'
    = state w !! delay_key r'.
Proof.
  intros Hid. split; apply call_frame.
  - intros H. by apply retry_key_inj in H.
  - apply retry_delay_distinct.
  - intros H. symmetry in H. by apply retry_delay_distinct in H.
  - intros H. by apply delay_key_inj in H.
Qed.

(** *** States the coordinator did not produce *)

(** X2. A stored count without a stored delay makes every call raise
    [KeyError] at line 43, before anything is changed or slept; the state
    stays as it is however often the request fails. *)
Theorem X2_count_without_delay_is_stuck (r : LlmRequest) (w : World)
    (cv : pyval) :
  state w !! retry_key r = Some cv →
  state w !! delay_key r = None →
  (∀ e x : option pyexn,
     retry_on_error_callback r e x w
       = (w, Raise (Exn KeyError ("'" +:+ delay_key r +:+ "'")))) ∧
  (∀ errs : list (option pyexn * option pyexn), after errs r w = w).
Proof.
  intros Hc Hd.
  assert (∀ e x, retry_on_error_callback r e x w
                 = (w, Raise (Exn KeyError ("'" +:+ delay_key r +:+ "'"))))
    as Hcall by (intros e x; exact (call_missing_delay r e x w cv Hc Hd)).
  split; [exact Hcall|].
  intros errs. induction errs as [| [e x] rest IH]; [reflexivity|].
  cbn [after]. by rewrite Hcall.
Qed.

(** X3. A stored count that is no number ([None] or a text) makes every
    call raise [TypeError] at the comparison of line 46; nothing is
    changed or slept, and the entry is never cleaned up. *)
Theorem X3_count_not_a_number_is_stuck (r : LlmRequest) (w : World)
    (cv dv : pyval) :
  state w !! retry_key r = Some cv →
  state w !! delay_key r = Some dv →
  (cv = PyNone ∨ ∃ s, cv = PyStr s) →
  (∀ e x : option pyexn,
     ∃ ex : pyexn,
       exn_cls ex = TypeError ∧
       retry_on_error_callback r e x w = (w, Raise ex)) ∧
  (∀ errs : list (option pyexn * option pyexn), after errs r w = w).
Proof.
  intros Hc Hd Hcv.
  assert (∀ e x, ∃ ex, exn_cls ex = TypeError ∧
                       retry_on_error_callback r e x w = (w, Raise ex))
    as Hcall.
  { intros e x. rewrite (call_present r e x w cv dv Hc Hd).
    destruct Hcv as [-> | [s ->]]; cbn [Py.ge_int];
      (eexists; split; [|reflexivity]; reflexivity). }
  split; [exact Hcall|].
  intros errs. induction errs as [| [e x] rest IH]; [reflexivity|].
  cbn [after]. destruct (Hcall e x) as (ex & _ & ->). exact IH.
Qed.

(** X4. When [time.sleep] rejects the stored delay (a negative number, a
    NaN, a text), the attempt count has already been incremented at line
    53: the call raises the error of [time.sleep], has slept nothing and
    has left the delay as it was. *)
Theorem X4_rejected_delay_consumes_attempt (r : LlmRequest) (w : World)
    (c : Z) (dv : pyval) (ex : pyexn) (e x : option pyexn) :
  state w !! retry_key r = Some (PyInt c) →
  state w !! delay_key r = Some dv →
  c < RETRY_MAX_ATTEMPTS - 1 →
  Py.sleep_check dv = Raise ex →
  retry_on_error_callback r e x w
    = (mkWorld (<[retry_key r := PyInt (c + 1)]> (state w)) (slept w),
       Raise ex) ∧
  state (fst (retry_on_error_callback r e x w)) !! delay_key r = Some dv.
Proof.
  pose proof (keys_distinct r) as Hne.
  intros Hc Hd Hlt Hsleep.
  rewrite (call_present r e x w (PyInt c) dv Hc Hd).
  unfold Py.ge_int. rewrite (proj2 (Z.leb_gt _ _) Hlt).
  cbn [Py.add_int]. rewrite Hsleep. split; [reflexivity|].
  cbn [fst state]. by lookups.
Qed.

(** *** Rounds of three failures *)

Lemma after_three (r : LlmRequest) (w : World)
    (e1 x1 e2 x2 e3 x3 : option pyexn) :
  state w !! retry_key r = None →
  after [(e1, x1); (e2, x2); (e3, x3)] r w =
    mkWorld (delete (delay_key r) (state w))
      (slept w ++ [PyFloat f0_1; PyFloat f0_2]).
Proof.
  pose proof (keys_distinct r) as Hne.
  intros Habs. cbn [after].
  rewrite (call_created r e1 x1 w Habs). cbn [fst].
  match goal with |- context [retry_on_error_callback r e2 x2 ?v] =>
    set (w1 := v) end.
  assert (state w1 !! retry_key r = Some (PyInt 1)) as Hc1
    by (subst w1; cbn [state]; lookups; reflexivity).
  assert (state w1 !! delay_key r = Some (PyFloat (backoff 1))) as Hd1
    by (subst w1; cbn [state]; lookups; reflexivity).
  rewrite (call_retry r e2 x2 w1 1 (backoff 1) Hc1 Hd1 eq_refl
             (backoff_sleeps 1)). cbn [fst].
  match goal with |- context [retry_on_error_callback r e3 x3 ?v] =>
    set (w2 := v) end.
  assert (state w2 !! retry_key r = Some (PyInt 2)) as Hc2
    by (subst w2; cbn [state]; lookups; reflexivity).
  assert (state w2 !! delay_key r = Some (PyFloat (backoff 2))) as Hd2
    by (subst w2; cbn [state]; lookups; reflexivity).
  rewrite (call_exhausted r e3 x3 w2 _ _ Hc2 Hd2 eq_refl). cbn [fst].
  subst w2 w1. cbn [state slept]. f_equal.
  - apply map_eq. intros k.
    destruct (decide (k = delay_key r)) as [-> | Hk2]; [by lookups|].
    destruct (decide (k = retry_key r)) as [-> | Hk1]; lookups; done.
  - rewrite <- app_assoc. reflexivity.
Qed.

(** X5. When the retry-count key of a request is absent, three
    consecutive failures all return and leave the state without either
    key of the request and otherwise unchanged, a stale delay entry
    included; the sleeps of the three calls are 0.1 and 0.2. *)
Theorem X5_three_failures_clean_up (r : LlmRequest) (w : World)
    (e1 x1 e2 x2 e3 x3 : option pyexn) :
  state w !! retry_key r = None →
  Forall (fun o => snd o = Ok PyNone)
    (run [(e1, x1); (e2, x2); (e3, x3)] r w) ∧
  state (after [(e1, x1); (e2, x2); (e3, x3)] r w)
    = delete (delay_key r) (state w) ∧
  slept (after [(e1, x1); (e2, x2); (e3, x3)] r w)
    = (slept w ++ [PyFloat f0_1; PyFloat f0_2])%list.
Proof.
  intros Habs. rewrite (after_three r w e1 x1 e2 x2 e3 x3 Habs).
  split; [|split; reflexivity].
  assert (coordinated r w) as Hw by (by left).
  pose proof (run_steps_ok [(e1, x1); (e2, x2); (e3, x3)] r w Hw) as Hok.
  cbn [run steps_ok] in *.
  destruct (retry_on_error_callback r e1 x1 w) as [w1 v1]. cbn [fst] in *.
  destruct (retry_on_error_callback r e2 x2 w1) as [w2 v2]. cbn [fst] in *.
  destruct (retry_on_error_callback r e3 x3 w2) as [w3 v3].
  destruct Hok as (-> & _ & -> & _ & -> & _).
  repeat constructor.
Qed.

(** X6. For a request without entries, the sleeps of any number of
    consecutive failures repeat the round 0.1, 0.2, nothing: after
    [3k + j] failures ([j < 3]) the state holds no entry of the request
    when [j = 0], and the sleeps are [k] rounds followed by the first [j]
    delays of a round. The stored delay 0.4 is never slept. *)
Theorem X6_sleeps_repeat_in_rounds (r : LlmRequest) (w : World)
    (errs : list (option pyexn * option pyexn)) (k j : nat) :
  state w !! retry_key r = None →
  state w !! delay_key r = None →
  length errs = (3 * k + j)%nat →
  (j < 3)%nat →
  slept (after errs r w)
    = (slept w ++ rounds k ++ take j [PyFloat f0_1; PyFloat f0_2])%list ∧
  (j = 0%nat → state (after errs r w) = state w).
Proof.
  pose proof (keys_distinct r) as Hne.
  revert errs w. induction k as [|k IH]; intros errs w Hc Hd Hlen Hj.
  - cbn [rounds app]. replace (3 * 0 + j)%nat with j in Hlen by lia.
    destruct errs as [| [e1 x1] [| [e2 x2] [| ? ?]]]; cbn [length] in Hlen;
      try lia; subst j; cbn [after take].
    + split; [by rewrite app_nil_r | done].
    + rewrite (call_created r e1 x1 w Hc). cbn [fst slept].
      split; [reflexivity | done].
    + rewrite (call_created r e1 x1 w Hc). cbn [fst].
      match goal with |- context [retry_on_error_callback r e2 x2 ?v] =>
        set (w1 := v) end.
      assert (state w1 !! retry_key r = Some (PyInt 1)) as Hc1
        by (subst w1; cbn [state]; lookups; reflexivity).
      assert (state w1 !! delay_key r = Some (PyFloat (backoff 1))) as Hd1
        by (subst w1; cbn [state]; lookups; reflexivity).
      rewrite (call_retry r e2 x2 w1 1 (backoff 1) Hc1 Hd1 eq_refl
                 (backoff_sleeps 1)). cbn [fst slept]. subst w1. cbn [slept].
      split; [by rewrite <- app_assoc | done].
  - destruct errs as [| [e1 x1] [| [e2 x2] [| [e3 x3] rest]]];
      cbn [length] in Hlen; try lia.
    change (after ((e1, x1) :: (e2, x2) :: (e3, x3) :: rest) r w)
      with (after rest r (after [(e1, x1); (e2, x2); (e3, x3)] r w)).
    rewrite (after_three r w e1 x1 e2 x2 e3 x3 Hc).
    rewrite (delete_id _ _ Hd).
    destruct (IH rest (mkWorld (state w)
                         (slept w ++ [PyFloat f0_1; PyFloat f0_2])))
      as [Hs Hst]; [exact Hc | exact Hd | lia | exact Hj |].
    split; [|exact Hst].
    rewrite Hs. cbn [slept rounds]. rewrite <- app_assoc. reflexivity.
Qed.

(** *** What a call reads *)

(** Result, sleeps and new entries of a call are a function of the two
    entries of the request. *)
Lemma call_local (r : LlmRequest) (e x e' x' : option pyexn) (w w' : World) :
  state w !! retry_key r = state w' !! retry_key r →
  state w !! delay_key r = state w' !! delay_key r →
  snd (retry_on_error_callback r e x w)
    = snd (retry_on_error_callback r e' x' w') ∧
  state (fst (retry_on_error_callback r e x w)) !! retry_key r
    = state (fst (retry_on_error_callback r e' x' w')) !! retry_key r ∧
  state (fst (retry_on_error_callback r e x w)) !! delay_key r
    = state (fst (retry_on_error_callback r e' x' w')) !! delay_key r ∧
  ∃ l : list pyval,
    slept (fst (retry_on_error_callback r e x w)) = (slept w ++ l)%list ∧
    slept (fst (retry_on_error_callback r e' x' w')) = (slept w' ++ l)%list.
Proof.
  pose proof (keys_distinct r) as Hne.
  intros Hrk Hdk.
  destruct (state_cases r w) as [Ha | [(cv & Hc & Hd) | (cv & dv & Hc & Hd)]].
  - rewrite (call_created r e x w Ha).
    rewrite (call_created r e' x' w') by (by rewrite <- Hrk).
    cbn [fst snd state slept]. lookups.
    repeat split; try done. by eexists.
  - rewrite (call_missing_delay r e x w cv Hc Hd).
    rewrite (call_missing_delay r e' x' w' cv)
      by (by rewrite <- ?Hrk, <- ?Hdk).
    cbn [fst snd]. repeat split; try done.
    exists []. by rewrite !app_nil_r.
  - rewrite (call_present r e x w cv dv Hc Hd).
    rewrite (call_present r e' x' w' cv dv)
      by (by rewrite <- ?Hrk, <- ?Hdk).
    paths cv dv; cbn [fst snd state slept]; lookups;
      repeat split; try done;
      first [ by eexists | exists []; by rewrite !app_nil_r ].
Qed.

(** X7. [rate_limit_callback] sleeps 0.1 seconds, returns [None] and does
    not touch the state, so a retry call gives the same result and the
    same state whether or not the throttle ran before it. *)
Theorem X7_throttle_keeps_retry_state (r r' : LlmRequest)
    (e x : option pyexn) (w : World) :
  rate_limit_callback r' w
    = (mkWorld (state w) (slept w ++ [PyFloat f0_1]), Ok PyNone) ∧
  snd (retry_on_error_callback r e x (fst (rate_limit_callback r' w)))
    = snd (retry_on_error_callback r e x w) ∧
  state (fst (retry_on_error_callback r e x (fst (rate_limit_callback r' w))))
    = state (fst (retry_on_error_callback r e x w)).
Proof.
  assert (rate_limit_callback r' w
          = (mkWorld (state w) (slept w ++ [PyFloat f0_1]), Ok PyNone))
    as Hrate by reflexivity.
  split; [exact Hrate|]. rewrite Hrate. cbn [fst].
  set (w1 := mkWorld (state w) (slept w ++ [PyFloat f0_1])).
  destruct (call_local r e x e x w1 w eq_refl eq_refl)
    as (Hres & Hrk & Hdk & _).
  split; [exact Hres|].
  apply map_eq. intros k.
  destruct (decide (k = retry_key r)) as [-> | Hk1]; [exact Hrk|].
  destruct (decide (k = delay_key r)) as [-> | Hk2]; [exact Hdk|].
  rewrite !call_frame by done. reflexivity.
Qed.

(** X8. A call reads nothing but the two entries of its request: on two
    states that agree on them, with any error arguments, it returns the
    same result, sleeps the same and stores the same entries. *)
Theorem X8_call_reads_only_its_entries (r : LlmRequest)
    (e x e' x' : option pyexn) (w w' : World) :
  state w !! retry_key r = state w' !! retry_key r →
  state w !! delay_key r = state w' !! delay_key r →
  snd (retry_on_error_callback r e x w)
    = snd (retry_on_error_callback r e' x' w') ∧
  state (fst (retry_on_error_callback r e x w)) !! retry_key r
    = state (fst (retry_on_error_callback r e' x' w')) !! retry_key r ∧
  state (fst (retry_on_error_callback r e x w)) !! delay_key r
    = state (fst (retry_on_error_callback r e' x' w')) !! delay_key r ∧
  ∃ l : list pyval,
    slept (fst (retry_on_error_callback r e x w)) = (slept w ++ l)%list ∧
    slept (fst (retry_on_error_callback r e' x' w')) = (slept w' ++ l)%list.
Proof. apply call_local. Qed.

(** X9. Failures of two requests with different identities do not
    interfere: handled in either order they give the same results and
    the same final state. *)
Theorem X9_requests_commute (r r' : LlmRequest) (e x e' x' : option pyexn)
    (w : World) :
  py_id r ≠ py_id r' →
  snd (retry_on_error_callback r' e' x'
         (fst (retry_on_error_callback r e x w)))
    = snd (retry_on_error_callback r' e' x' w) ∧
  snd (retry_on_error_callback r e x
         (fst (retry_on_error_callback r' e' x' w)))
    = snd (retry_on_error_callback r e x w) ∧
  state (fst (retry_on_error_callback r' e' x'
                (fst (retry_on_error_callback r e x w))))
    = state (fst (retry_on_error_callback r e x
                    (fst (retry_on_error_callback r' e' x' w)))).
Proof.
  intros Hid.
  assert (retry_key r ≠ retry_key r') as H1
    by (intros H; by apply retry_key_inj in H).
  assert (delay_key r ≠ delay_key r') as H2
    by (intros H; by apply delay_key_inj in H).
  pose proof (retry_delay_distinct r r') as H3.
  pose proof (retry_delay_distinct r' r) as H4.
  set (wr := fst (retry_on_error_callback r e x w)).
  set (wr' := fst (retry_on_error_callback r' e' x' w)).
  assert (∀ k, k ≠ retry_key r → k ≠ delay_key r →
               state wr !! k = state w !! k) as Hfr
    by (intros k ? ?; by apply call_frame).
  assert (∀ k, k ≠ retry_key r' → k ≠ delay_key r' →
               state wr' !! k = state w !! k) as Hfr'
    by (intros k ? ?; by apply call_frame).
  destruct (call_local r' e' x' e' x' wr w) as (Hres' & Hrk' & Hdk' & _);
    [by apply Hfr | by apply Hfr |].
  destruct (call_local r e x e x wr' w) as (Hres & Hrk & Hdk & _);
    [by apply Hfr' | by apply Hfr' |].
  split; [exact Hres'|]. split; [exact Hres|].
  apply map_eq. intros k.
  destruct (decide (k = retry_key r)) as [-> | Hk1].
  { rewrite Hrk. rewrite call_frame by done. reflexivity. }
  destruct (decide (k = delay_key r)) as [-> | Hk2].
  { rewrite Hdk. rewrite call_frame by done. reflexivity. }
  destruct (decide (k = retry_key r')) as [-> | Hk3].
  { rewrite Hrk'. rewrite (call_frame r e x wr') by done. reflexivity. }
  destruct (decide (k = delay_key r')) as [-> | Hk4].
  { rewrite Hdk'. rewrite (call_frame r e x wr') by done. reflexivity. }
  rewrite (call_frame r' e' x' wr) by done.
  rewrite (call_frame r e x wr') by done.
  rewrite Hfr, Hfr' by done. reflexivity.
Qed.

(** *** The theorems at concrete inputs *)

Lemma X1_other_requests_untouched_witness :
  state (fst (retry_on_error_callback request7 None None world_retried_twice))
    !! retry_key request8 = state world_retried_twice !! retry_key request8 ∧
  state (fst (retry_on_error_callback request7 None None world_retried_twice))
    !! delay_key request8 = state world_retried_twice !! delay_key request8.
Proof.
  apply (X1_other_requests_untouched request7 request8 None None
           world_retried_twice).
  vm_compute. discriminate.
Defined.

Lemma X2_count_without_delay_is_stuck_witness :
  (∀ e x : option pyexn,
     retry_on_error_callback request7 e x world_count_only
       = (world_count_only,
          Raise (Exn KeyError ("'" +:+ delay_key request7 +:+ "'")))) ∧
  (∀ errs : list (option pyexn * option pyexn),
     after errs request7 world_count_only = world_count_only).
Proof.
  apply (X2_count_without_delay_is_stuck request7 world_count_only (PyInt 0));
    reflexivity.
Defined.

Lemma X3_count_not_a_number_is_stuck_witness :
  (∀ e x : option pyexn,
     ∃ ex : pyexn,
       exn_cls ex = TypeError ∧
       retry_on_error_callback request7 e x world_text_count
         = (world_text_count, Raise ex)) ∧
  (∀ errs : list (option pyexn * option pyexn),
     after errs request7 world_text_count = world_text_count).
Proof.
  apply (X3_count_not_a_number_is_stuck request7 world_text_count
           (PyStr "two") (PyFloat f0_1)); [reflexivity | reflexivity |].
  right. eexists. reflexivity.
Defined.

Lemma X4_rejected_delay_consumes_attempt_witness :
  retry_on_error_callback request7 None None world_negative_delay
    = (mkWorld (<[retry_key request7 := PyInt (0 + 1)]>
                  (state world_negative_delay))
         (slept world_negative_delay),
       Raise (Exn ValueError "sleep length must be non-negative")) ∧
  state (fst (retry_on_error_callback request7 None None world_negative_delay))
    !! delay_key request7
    = Some (PyFloat (S754_finite true 4503599627370496 (-52))).
Proof.
  apply (X4_rejected_delay_consumes_attempt request7 world_negative_delay 0
           (PyFloat (S754_finite true 4503599627370496 (-52)))
           (Exn ValueError "sleep length must be non-negative") None None);
    reflexivity.
Defined.

Lemma X5_three_failures_clean_up_witness :
  Forall (fun o => snd o = Ok PyNone)
    (run three_failures request7 world_stale_delay) ∧
  state (after three_failures request7 world_stale_delay)
    = delete (delay_key request7) (state world_stale_delay) ∧
  slept (after three_failures request7 world_stale_delay)
    = (slept world_stale_delay ++ [PyFloat f0_1; PyFloat f0_2])%list.
Proof.
  apply (X5_three_failures_clean_up request7 world_stale_delay
           None None None None None None).
  reflexivity.
Defined.

Lemma X6_sleeps_repeat_in_rounds_witness :
  slept (after three_failures request7 world_fresh)
    = (slept world_fresh ++ rounds 1
         ++ take 0 [PyFloat f0_1; PyFloat f0_2])%list ∧
  (0%nat = 0%nat →
   state (after three_failures request7 world_fresh) = state world_fresh).
Proof.
  apply (X6_sleeps_repeat_in_rounds request7 world_fresh three_failures 1 0);
    [reflexivity | reflexivity | reflexivity | lia].
Defined.

Lemma X8_call_reads_only_its_entries_witness :
  snd (retry_on_error_callback request7 None None world_fresh)
    = snd (retry_on_error_callback request7
             (Some (Exn (OtherException "ServerError") "503 UNAVAILABLE")) None
             world_other_entries) ∧
  state (fst (retry_on_error_callback request7 None None world_fresh))
    !! retry_key request7
    = state (fst (retry_on_error_callback request7
                    (Some (Exn (OtherException "ServerError") "503 UNAVAILABLE"))
                    None world_other_entries))
        !! retry_key request7 ∧
  state (fst (retry_on_error_callback request7 None None world_fresh))
    !! delay_key request7
    = state (fst (retry_on_error_callback request7
                    (Some (Exn (OtherException "ServerError") "503 UNAVAILABLE"))
                    None world_other_entries))
        !! delay_key request7 ∧
  ∃ l : list pyval,
    slept (fst (retry_on_error_callback request7 None None world_fresh))
      = (slept world_fresh ++ l)%list ∧
    slept (fst (retry_on_error_callback request7
                  (Some (Exn (OtherException "ServerError") "503 UNAVAILABLE"))
                  None world_other_entries))
      = (slept world_other_entries ++ l)%list.
Proof.
  apply (X8_call_reads_only_its_entries request7 None None
           (Some (Exn (OtherException "ServerError") "503 UNAVAILABLE")) None
           world_fresh world_other_entries); reflexivity.
Defined.

Lemma X9_requests_commute_witness :
  snd (retry_on_error_callback request8 None None
         (fst (retry_on_error_callback request7 None None world_retried_twice)))
    = snd (retry_on_error_callback request8 None None world_retried_twice) ∧
  snd (retry_on_error_callback request7 None None
         (fst (retry_on_error_callback request8 None None world_retried_twice)))
    = snd (retry_on_error_callback request7 None None world_retried_twice) ∧
  state (fst (retry_on_error_callback request8 None None
                (fst (retry_on_error_callback request7 None None
                        world_retried_twice))))
    = state (fst (retry_on_error_callback request7 None None
                    (fst (retry_on_error_callback request8 None None
                            world_retried_twice)))).
Proof.
  apply (X9_requests_commute request7 request8 None None None None
           world_retried_twice).
  vm_compute. discriminate.
Defined.

End MoreRetry.

(** * Further properties of the token helpers *)

Section MoreAuth.
Import AuthHelper MyTools AuthSpec MoreSpec ConfigSpec.

(** *** [str.strip] *)

Lemma lstrip_first (s : string) (c : ascii) :
  first_char (lstrip s) = Some c → is_space c = false.
Proof.
  induction s as [|a s IH]; cbn [lstrip]; [discriminate|].
  destruct (is_space a) eqn:Ha; [exact IH|].
  cbn [first_char]. by intros [= <-].
Qed.

Lemma rstrip_last (s : string) (c : ascii) :
  last_char (rstrip s) = Some c → is_space c = false.
Proof.
  induction s as [|a s IH]; cbn [rstrip]; [discriminate|].
  destruct (rstrip s) as [|b t] eqn:Hr.
  - destruct (is_space a) eqn:Ha; [discriminate|].
    cbn [last_char]. by intros [= <-].
  - exact IH.
Qed.

Lemma rstrip_first (s : string) (c : ascii) :
  first_char (rstrip s) = Some c → first_char s = Some c.
Proof.
  destruct s as [|a s]; cbn [rstrip]; [discriminate|].
  destruct (rstrip s) as [|b t]; [|done].
  by destruct (is_space a).
Qed.

Lemma lstrip_id (s : string) :
  (∀ c, first_char s = Some c → is_space c = false) → lstrip s = s.
Proof.
  destruct s as [|a s]; [done|]. intros H. cbn [lstrip].
  by rewrite (H a eq_refl).
Qed.

Lemma rstrip_id (s : string) :
  (∀ c, last_char s = Some c → is_space c = false) → rstrip s = s.
Proof.
  induction s as [|a s IH]; [done|]. intros H. cbn [rstrip].
  destruct s as [|b s'].
  - cbn [rstrip]. by rewrite (H a eq_refl).
  - rewrite IH by (intros c Hc; apply H; exact Hc). reflexivity.
Qed.

Lemma strip_trimmed (s : string) : trimmed (strip s).
Proof.
  unfold trimmed, strip. split; intros c Hc.
  - apply rstrip_first in Hc. by apply lstrip_first in Hc.
  - by apply rstrip_last in Hc.
Qed.

Lemma strip_id (s : string) : trimmed s → strip s = s.
Proof.
  intros [Hf Hl]. unfold strip. rewrite (lstrip_id s Hf). by apply rstrip_id.
Qed.

Lemma lstrip_all_space (s : string) :
  all_space s = true → lstrip s = EmptyString.
Proof.
  induction s as [|a s IH]; [done|]. cbn [all_space lstrip].
  intros [Ha Hs]%andb_true_iff. rewrite Ha. by apply IH.
Qed.

Lemma lstrip_skip (pre s : string) :
  all_space pre = true → lstrip (pre +:+ s) = lstrip s.
Proof.
  induction pre as [|a pre IH]; [done|]. cbn [all_space].
  intros [Ha Hs]%andb_true_iff.
  change (String a pre +:+ s) with (String a (pre +:+ s)).
  cbn [lstrip]. rewrite Ha. by apply IH.
Qed.

Lemma rstrip_all_space (s : string) :
  all_space s = true → rstrip s = EmptyString.
Proof.
  induction s as [|a s IH]; [done|]. cbn [all_space rstrip].
  intros [Ha Hs]%andb_true_iff. rewrite (IH Hs). by rewrite Ha.
Qed.

Lemma rstrip_skip (s post : string) :
  all_space post = true → rstrip (s +:+ post) = rstrip s.
Proof.
  intros Hp. induction s as [|a s IH].
  - by apply rstrip_all_space.
  - change (String a s +:+ post) with (String a (s +:+ post)).
    cbn [rstrip]. by rewrite IH.
Qed.

Lemma lstrip_app (s post : string) :
  lstrip (s +:+ post)
    = if all_space s then lstrip post else lstrip s +:+ post.
Proof.
  induction s as [|a s IH]; [done|].
  change (String a s +:+ post) with (String a (s +:+ post)).
  cbn [lstrip all_space]. destruct (is_space a); [exact IH | done].
Qed.

Lemma strip_around (s pre post : string) :
  all_space pre = true → all_space post = true →
  strip (pre +:+ s +:+ post) = strip s.
Proof.
  intros Hpre Hpost. unfold strip. rewrite (lstrip_skip pre _ Hpre).
  rewrite lstrip_app. destruct (all_space s) eqn:Hs.
  - by rewrite (lstrip_all_space post Hpost), (lstrip_all_space s Hs).
  - by apply rstrip_skip.
Qed.

(** *** [get_id_token_for_service] *)

Lemma impersonation_success (env : Env) (audience_url sa out : string) :
  truthy (environ env !! "AGENT_SERVICE_ACCOUNT") = Some sa →
  spawn env (impersonation_argv sa audience_url) = Exited 0 out →
  get_id_token_for_service env audience_url = Ok ("Bearer " +:+ strip out).
Proof.
  intros Hsa Hrun. unfold get_id_token_for_service, try_body. rewrite Hsa.
  change [ "gcloud"; "auth"; "print-identity-token";
           "--impersonate-service-account=" +:+ sa;
           "--audiences=" +:+ audience_url ]
    with (impersonation_argv sa audience_url).
  unfold subprocess_run. by rewrite Hrun.
Qed.

Lemma truthy_deleted (m : gmap string string) (k : string) :
  truthy (delete k m !! k) = None.
Proof. by rewrite lookup_delete_eq. Qed.

Lemma ambient_only (env : Env) (audience_url : string) :
  try_body (without_impersonation env) audience_url
    = default_path env audience_url.
Proof.
  unfold try_body, without_impersonation. cbn [environ].
  by rewrite truthy_deleted.
Qed.

Lemma helper_raises (env : Env) (audience_url : string) (e : pyexn) :
  get_id_token_for_service env audience_url = Raise e →
  e = no_adc_error ∨ e = fetch_failed_error.
Proof.
  unfold get_id_token_for_service.
  destruct (try_body env audience_url) as [b|exc]; [discriminate|].
  destruct (exn_class_eqb (exn_cls exc) DefaultCredentialsError);
    intros [= <-]; [by left | by right].
Qed.

(** X10. On the impersonation path the token is the CLI output without
    the white space around it, white space being what [str.strip]
    removes, U+0085 and U+00A0 included: for an output made of white
    space, a text that neither starts nor ends with white space, and
    white space again (the usual final newline), the helper returns
    ["Bearer "] followed by exactly that text; and the token it returns
    never starts or ends with white space. *)
Theorem X10_token_is_output_without_surrounding_space (env : Env)
    (audience_url sa pre token post : string) :
  truthy (environ env !! "AGENT_SERVICE_ACCOUNT") = Some sa →
  spawn env (impersonation_argv sa audience_url)
    = Exited 0 (pre +:+ token +:+ post) →
  all_space pre = true →
  all_space post = true →
  trimmed token →
  get_id_token_for_service env audience_url = Ok ("Bearer " +:+ token) ∧
  ∀ out : string, trimmed (strip out).
Proof.
  intros Hsa Hrun Hpre Hpost Htok. split; [|apply strip_trimmed].
  rewrite (impersonation_success env audience_url sa _ Hsa Hrun).
  rewrite (strip_around token pre post Hpre Hpost).
  by rewrite (strip_id token Htok).
Qed.

(** X11. When impersonation is configured and the identity CLI exits with
    status 0, the helper returns the stripped output as bearer token
    whatever the state of the ambient credentials, which are not
    consulted. *)
Theorem X11_impersonation_wins (env : Env) (audience_url sa out : string) :
  truthy (environ env !! "AGENT_SERVICE_ACCOUNT") = Some sa →
  spawn env (impersonation_argv sa audience_url) = Exited 0 out →
  ∀ (default refresh : res unit) (fetch : string → res string),
    get_id_token_for_service
      (mkEnv (environ env) (spawn env) default refresh fetch) audience_url
      = Ok ("Bearer " +:+ strip out).
Proof.
  intros Hsa Hrun default refresh fetch.
  by apply (impersonation_success _ audience_url sa out).
Qed.

(** X12. When impersonation is configured and the identity CLI exits with
    a non-zero status, the helper gives exactly what it gives without the
    impersonation identity: the result or the error of the ambient
    path. *)
Theorem X12_failed_cli_equals_ambient (env : Env)
    (audience_url sa out : string) (code : Z) :
  truthy (environ env !! "AGENT_SERVICE_ACCOUNT") = Some sa →
  spawn env (impersonation_argv sa audience_url) = Exited code out →
  code ≠ 0 →
  get_id_token_for_service env audience_url
    = get_id_token_for_service (without_impersonation env) audience_url.
Proof.
  intros Hsa Hrun Hcode. unfold get_id_token_for_service.
  rewrite (nonzero_exit_falls_through env audience_url sa out code
             Hsa Hrun Hcode).
  by rewrite ambient_only.
Qed.

(** X13. An impersonation variable set to the empty text counts as unset:
    the CLI is not started, whatever it would do, and the helper gives
    what it gives without the variable. *)
Theorem X13_empty_identity_is_unset (env : Env) (audience_url : string) :
  environ env !! "AGENT_SERVICE_ACCOUNT" = Some EmptyString →
  ∀ cli : list string → proc_outcome,
    get_id_token_for_service
      (mkEnv (environ env) cli (google_auth_default env)
             (credentials_refresh env) (fetch_id_token env)) audience_url
      = get_id_token_for_service (without_impersonation env) audience_url.
Proof.
  intros Hsa cli. unfold get_id_token_for_service.
  rewrite ambient_only. unfold try_body. cbn [environ]. by rewrite Hsa.
Qed.

(** X14. The helper raises one of two errors only,
    [DefaultCredentialsError] with the remediation text or [RuntimeError]
    with the generic text: class and [str()] of what it raises are never
    those of the original exception, which Python keeps as [__cause__]
    only. *)
Theorem X14_only_two_errors (env : Env) (audience_url : string) (e : pyexn) :
  get_id_token_for_service env audience_url = Raise e →
  e = no_adc_error ∨ e = fetch_failed_error.
Proof. apply helper_raises. Qed.

(** X15. The helper asks for the given audience only: two environments
    that agree on the process environment, on the CLI for this audience,
    on the credentials and on the token fetched for this audience give
    the same result, whatever they would answer for other audiences. *)
Theorem X15_audience_scoped (env env' : Env) (audience_url : string) :
  environ env = environ env' →
  (∀ sa, spawn env (impersonation_argv sa audience_url)
         = spawn env' (impersonation_argv sa audience_url)) →
  google_auth_default env = google_auth_default env' →
  credentials_refresh env = credentials_refresh env' →
  fetch_id_token env audience_url = fetch_id_token env' audience_url →
  get_id_token_for_service env audience_url
    = get_id_token_for_service env' audience_url.
Proof.
  intros Henv Hspawn Hdef Href Hfetch.
  assert (default_path env audience_url = default_path env' audience_url)
    as Hpath by (unfold default_path; by rewrite Hdef, Href, Hfetch).
  unfold get_id_token_for_service, try_body. rewrite Henv.
  destruct (truthy (environ env' !! "AGENT_SERVICE_ACCOUNT")) as [sa|];
    [|by rewrite Hpath].
  change [ "gcloud"; "auth"; "print-identity-token";
           "--impersonate-service-account=" +:+ sa;
           "--audiences=" +:+ audience_url ]
    with (impersonation_argv sa audience_url).
  unfold subprocess_run. rewrite (Hspawn sa). by rewrite Hpath.
Qed.

(** X16. When the identity CLI exits with status 0 and prints white space
    only, the helper does not fail: it returns ["Bearer "] with an empty
    token. *)
Theorem X16_blank_output_gives_empty_token (env : Env)
    (audience_url sa out : string) :
  truthy (environ env !! "AGENT_SERVICE_ACCOUNT") = Some sa →
  spawn env (impersonation_argv sa audience_url) = Exited 0 out →
  all_space out = true →
  get_id_token_for_service env audience_url = Ok "Bearer ".
Proof.
  intros Hsa Hrun Hout.
  rewrite (impersonation_success env audience_url sa out Hsa Hrun).
  unfold strip. rewrite (lstrip_all_space out Hout). reflexivity.
Qed.

(** X24. Without an impersonation identity the helper succeeds exactly
    when the three steps of the ambient path succeed, credentials
    discovery, their refresh and the token request for the audience, and
    then returns ["Bearer "] followed by the fetched token. *)
Theorem X24_ambient_success (env : Env) (audience_url bearer : string) :
  truthy (environ env !! "AGENT_SERVICE_ACCOUNT") = None →
  get_id_token_for_service env audience_url = Ok bearer ↔
  google_auth_default env = Ok tt ∧
  credentials_refresh env = Ok tt ∧
  ∃ token : string,
    fetch_id_token env audience_url = Ok token ∧
    bearer = "Bearer " +:+ token.
Proof.
  intros Hsa. unfold get_id_token_for_service.
  rewrite (try_body_ambient env audience_url Hsa). unfold default_path.
  split.
  - destruct (google_auth_default env) as [[]|e1]; cbn [bind_res];
      [|by destruct (exn_class_eqb _ _)].
    destruct (credentials_refresh env) as [[]|e2]; cbn [bind_res];
      [|by destruct (exn_class_eqb _ _)].
    destruct (fetch_id_token env audience_url) as [token|e3]; cbn [bind_res];
      [|by destruct (exn_class_eqb _ _)].
    intros [= <-]. eauto.
  - intros (-> & -> & token & -> & ->). reflexivity.
Qed.

(** *** The header providers *)

(** X17. Each provider mints for its own service URL: with working
    ambient credentials and no impersonation, the LumosDB header carries
    the token fetched for [lumosdb_service_url] and the LumosTrade header
    the token fetched for [lumostrade_service_url]. *)
Theorem X17_providers_use_their_own_audience {C : Type} (g : Globals)
    (env : Env) (print : string → res unit) (context : C)
    (db_token trade_token : string) :
  truthy (environ env !! "AGENT_SERVICE_ACCOUNT") = None →
  google_auth_default env = Ok tt →
  credentials_refresh env = Ok tt →
  fetch_id_token env (lumosdb_service_url g) = Ok db_token →
  fetch_id_token env (lumostrade_service_url g) = Ok trade_token →
  get_lumosdb_auth_headers g env print context
    = ([], Ok {[ "Authorization" := "Bearer " +:+ db_token ]}) ∧
  get_lumostrade_auth_headers g env print context
    = ([], Ok {[ "Authorization" := "Bearer " +:+ trade_token ]}).
Proof.
  intros Hsa Hdef Href Hdb Htrade.
  unfold get_lumosdb_auth_headers, get_lumostrade_auth_headers,
    get_id_token_for_service.
  rewrite !(try_body_ambient env _ Hsa). unfold default_path.
  by rewrite Hdef, Href, Hdb, Htrade.
Qed.

(** X18. A provider has three outcomes only: the header; the empty
    mapping with one of two fixed lines printed; or, when [print] fails
    on that line, the exception of [print]. The line names the service
    URL and carries the text of the helper's own error, not that of the
    exception that caused it. *)
Theorem X18_provider_outcomes {C : Type} (g : Globals) (env : Env)
    (print : string → res unit) (context : C) :
  three_outcomes env print "LumosDB" (lumosdb_service_url g)
    (get_lumosdb_auth_headers g env print context) ∧
  three_outcomes env print "LumosTrade" (lumostrade_service_url g)
    (get_lumostrade_auth_headers g env print context).
Proof.
  assert (∀ label url,
            three_outcomes env print label url
              match get_id_token_for_service env url with
              | Ok bearer => ([], Ok {[ "Authorization" := bearer ]})
              | Raise e =>
                  match print (failure_line label url (exn_msg e)) with
                  | Ok _ => ([ failure_line label url (exn_msg e) ], Ok ∅)
                  | Raise print_error => ([], Raise print_error)
                  end
              end) as Hall.
  { intros label url. unfold three_outcomes.
    destruct (get_id_token_for_service env url) as [bearer|e] eqn:Hres.
    - left. by exists bearer.
    - right.
      assert (exn_msg e = NO_ADC_MESSAGE ∨ exn_msg e = FETCH_FAILED_MESSAGE)
        as Hmsg by (destruct (helper_raises env _ e Hres) as [-> | ->];
                    [by left | by right]).
      destruct (print (failure_line label url (exn_msg e)))
        as [[]|pe] eqn:Hprint.
      + left. by exists (exn_msg e).
      + right. by exists (exn_msg e), pe. }
  split.
  - apply (Hall "LumosDB" (lumosdb_service_url g)).
  - apply (Hall "LumosTrade" (lumostrade_service_url g)).
Qed.

(** *** The theorems at concrete inputs *)

Lemma X10_token_is_output_without_surrounding_space_witness :
  get_id_token_for_service env_padded_output "https://svc-a"
    = Ok ("Bearer " +:+ "cli-token") ∧
  ∀ out : string, trimmed (strip out).
Proof.
  apply (X10_token_is_output_without_surrounding_space env_padded_output
           "https://svc-a" "agent@lumos.iam.gserviceaccount.com"
           (String (ascii_of_nat 160) EmptyString) "cli-token"
           (String (ascii_of_nat 10) EmptyString));
    try reflexivity.
  split; intros c [= <-]; reflexivity.
Defined.

Lemma X11_impersonation_wins_witness :
  ∃ out : string,
    spawn env_impersonating
      (impersonation_argv "agent@lumos.iam.gserviceaccount.com" "https://svc-a")
      = Exited 0 out ∧
    get_id_token_for_service
      (mkEnv (environ env_impersonating) (spawn env_impersonating)
             (Raise (Exn DefaultCredentialsError "not found")) (Ok tt)
             (fun _ => Raise (Exn RuntimeError "unreachable")))
      "https://svc-a"
      = Ok ("Bearer " +:+ strip out).
Proof.
  eexists. split; [reflexivity|].
  apply (X11_impersonation_wins env_impersonating "https://svc-a"
           "agent@lumos.iam.gserviceaccount.com"); reflexivity.
Defined.

Lemma X12_failed_cli_equals_ambient_witness :
  get_id_token_for_service env_cli_fails "https://svc-a"
    = get_id_token_for_service (without_impersonation env_cli_fails)
        "https://svc-a".
Proof.
  apply (X12_failed_cli_equals_ambient env_cli_fails "https://svc-a"
           "agent@lumos.iam.gserviceaccount.com" EmptyString 1);
    [reflexivity | reflexivity | lia].
Defined.

Lemma X13_empty_identity_is_unset_witness :
  get_id_token_for_service
    (mkEnv (environ env_empty_account) (spawn env_empty_account)
           (google_auth_default env_empty_account)
           (credentials_refresh env_empty_account)
           (fetch_id_token env_empty_account)) "https://svc-a"
    = get_id_token_for_service (without_impersonation env_empty_account)
        "https://svc-a".
Proof.
  apply (X13_empty_identity_is_unset env_empty_account "https://svc-a").
  reflexivity.
Defined.

Lemma X14_only_two_errors_witness :
  fetch_failed_error = no_adc_error ∨ fetch_failed_error = fetch_failed_error.
Proof.
  apply (X14_only_two_errors env_network_down "https://svc-a").
  reflexivity.
Defined.

Lemma X15_audience_scoped_witness :
  get_id_token_for_service env_ambient "https://svc-a"
    = get_id_token_for_service
        (mkEnv (environ env_ambient) (spawn env_ambient)
               (google_auth_default env_ambient)
               (credentials_refresh env_ambient)
               (fun audience =>
                  if String.eqb audience "https://svc-a"
                  then fetch_id_token env_ambient audience
                  else Ok "token-of-another-service"))
        "https://svc-a".
Proof.
  apply (X15_audience_scoped env_ambient); reflexivity.
Defined.

Lemma X16_blank_output_gives_empty_token_witness :
  get_id_token_for_service env_blank_output "https://svc-a" = Ok "Bearer ".
Proof.
  apply (X16_blank_output_gives_empty_token env_blank_output "https://svc-a"
           "agent@lumos.iam.gserviceaccount.com"
           (String " " (String (ascii_of_nat 10) EmptyString)));
    reflexivity.
Defined.

Lemma X24_ambient_success_witness :
  get_id_token_for_service env_ambient "https://svc-a"
    = Ok "Bearer token-for-https://svc-a".
Proof.
  apply (X24_ambient_success env_ambient "https://svc-a"
           "Bearer token-for-https://svc-a"); [reflexivity|].
  split; [reflexivity|]. split; [reflexivity|].
  exists "token-for-https://svc-a". split; reflexivity.
Defined.

Lemma X17_providers_use_their_own_audience_witness :
  get_lumosdb_auth_headers sample_globals env_ambient stdout_closed tt
    = ([], Ok {[ "Authorization" :=
                   "Bearer " +:+ "token-for-https://lumosdb.example.run.app/" ]}) ∧
  get_lumostrade_auth_headers sample_globals env_ambient stdout_closed tt
    = ([], Ok {[ "Authorization" :=
                   "Bearer " +:+ "token-for-https://lumostrade.example.run.app" ]}).
Proof.
  apply (X17_providers_use_their_own_audience sample_globals env_ambient
           stdout_closed tt);
    reflexivity.
Defined.

End MoreAuth.

(** * Properties of the settings read at import time *)

Section MoreConfig.
Import AuthHelper MyTools AuthSpec MoreSpec ConfigSpec.

(** *** [str.rstrip("/")] and the MCP URLs *)

Lemma rstrip_slash_splits (s : string) :
  ∃ n : nat, s = PyStr.rstrip_char "/" s +:+ slashes n.
Proof.
  induction s as [|a s (n & IH)].
  - by exists 0%nat.
  - cbn [PyStr.rstrip_char].
    destruct (PyStr.rstrip_char "/" s) as [|b t] eqn:Hr.
    + destruct (Ascii.eqb_spec a "/") as [-> | Hne].
      * exists (S n). rewrite IH at 1. reflexivity.
      * exists n. rewrite IH at 1. reflexivity.
    + exists n. rewrite IH at 1. reflexivity.
Qed.

Lemma rstrip_slash_last (s : string) :
  last_char (PyStr.rstrip_char "/" s) ≠ Some "/"%char.
Proof.
  induction s as [|a s IH]; cbn [PyStr.rstrip_char]; [discriminate|].
  destruct (PyStr.rstrip_char "/" s) as [|b t] eqn:Hr.
  - destruct (Ascii.eqb_spec a "/") as [-> | Hne]; [discriminate|].
    cbn [last_char]. congruence.
  - exact IH.
Qed.

Lemma rstrip_slashes (n : nat) : PyStr.rstrip_char "/" (slashes n) = EmptyString.
Proof.
  induction n as [|n IH]; [reflexivity|].
  cbn [slashes PyStr.rstrip_char]. by rewrite IH.
Qed.

Lemma rstrip_slash_app (s : string) (n : nat) :
  PyStr.rstrip_char "/" (s +:+ slashes n) = PyStr.rstrip_char "/" s.
Proof.
  induction s as [|a s IH]; [apply rstrip_slashes|].
  change (String a s +:+ slashes n) with (String a (s +:+ slashes n)).
  cbn [PyStr.rstrip_char]. by rewrite IH.
Qed.

Lemma rstrip_slash_id (s : string) :
  last_char s ≠ Some "/"%char → PyStr.rstrip_char "/" s = s.
Proof.
  induction s as [|a s IH]; [done|]. intros H. cbn [PyStr.rstrip_char].
  destruct s as [|b s'].
  - cbn [PyStr.rstrip_char]. cbn [last_char] in H.
    destruct (Ascii.eqb_spec a "/") as [-> | Hne]; [done | reflexivity].
  - rewrite IH by exact H. reflexivity.
Qed.

Lemma last_char_app (pre s : string) (c : ascii) :
  last_char (pre +:+ String c s) = last_char (String c s).
Proof.
  induction pre as [|a pre IH]; [reflexivity|].
  change (String a pre +:+ String c s) with (String a (pre +:+ String c s)).
  cbn [last_char]. rewrite IH.
  destruct (pre +:+ String c s) eqn:Heq; [|reflexivity].
  destruct pre; discriminate.
Qed.

(** X19. The MCP URL of a tool service is its service URL without
    trailing slashes followed by ["/mcp"]: any number of slashes at the
    end of the configured URL gives the same MCP URL, and the part before
    ["/mcp"] never ends with a slash. *)
Theorem X19_mcp_url_ignores_trailing_slashes (db trade : string) (n m : nat) :
  MyToolsUrls.lumosdb_service_url_mcp (mkGlobals (db +:+ slashes n) trade)
    = MyToolsUrls.lumosdb_service_url_mcp (mkGlobals db trade) ∧
  MyToolsUrls.lumostrade_service_url_mcp (mkGlobals db (trade +:+ slashes m))
    = MyToolsUrls.lumostrade_service_url_mcp (mkGlobals db trade) ∧
  (∃ (base : string) (k : nat),
     db = base +:+ slashes k ∧
     last_char base ≠ Some "/"%char ∧
     MyToolsUrls.lumosdb_service_url_mcp (mkGlobals db trade)
       = base +:+ "/mcp") ∧
  (∃ (base : string) (k : nat),
     trade = base +:+ slashes k ∧
     last_char base ≠ Some "/"%char ∧
     MyToolsUrls.lumostrade_service_url_mcp (mkGlobals db trade)
       = base +:+ "/mcp").
Proof.
  unfold MyToolsUrls.lumosdb_service_url_mcp,
    MyToolsUrls.lumostrade_service_url_mcp.
  cbn [lumosdb_service_url lumostrade_service_url].
  rewrite !rstrip_slash_app.
  split; [reflexivity|]. split; [reflexivity|]. split.
  - destruct (rstrip_slash_splits db) as [k Hk].
    exists (PyStr.rstrip_char "/" db), k.
    split; [exact Hk|]. split; [apply rstrip_slash_last | reflexivity].
  - destruct (rstrip_slash_splits trade) as [k Hk].
    exists (PyStr.rstrip_char "/" trade), k.
    split; [exact Hk|]. split; [apply rstrip_slash_last | reflexivity].
Qed.

(** X20. Importing MyTools needs both service URLs: a missing or empty
    [TOOL_LUMOSDB_SERVICE_URL] raises [RuntimeError] naming it, whatever
    the other variable holds; with it set, a missing or empty
    [TOOL_LUMOSTRADE_SERVICE_URL] raises [RuntimeError] naming that one;
    and a successful import holds the two values of the environment,
    neither of them empty. *)
Theorem X20_tool_urls_are_required (env : Env) :
  (truthy (environ env !! "TOOL_LUMOSDB_SERVICE_URL") = None →
   MyTools.load env
     = Raise (Exn RuntimeError "TOOL_LUMOSDB_SERVICE_URL must be set")) ∧
  (∀ db : string,
     truthy (environ env !! "TOOL_LUMOSDB_SERVICE_URL") = Some db →
     truthy (environ env !! "TOOL_LUMOSTRADE_SERVICE_URL") = None →
     MyTools.load env
       = Raise (Exn RuntimeError "TOOL_LUMOSTRADE_SERVICE_URL must be set")) ∧
  (∀ g : Globals,
     MyTools.load env = Ok g →
     environ env !! "TOOL_LUMOSDB_SERVICE_URL" = Some (lumosdb_service_url g) ∧
     environ env !! "TOOL_LUMOSTRADE_SERVICE_URL"
       = Some (lumostrade_service_url g) ∧
     lumosdb_service_url g ≠ EmptyString ∧
     lumostrade_service_url g ≠ EmptyString).
Proof.
  assert (∀ (o : option string) (v : string),
            truthy o = Some v → o = Some v ∧ v ≠ EmptyString) as Htruthy.
  { intros [[|a t]|] v; cbn [truthy]; intros [= <-]. done. }
  unfold MyTools.load. split; [|split].
  - by intros ->.
  - by intros db -> ->.
  - intros g.
    destruct (truthy (environ env !! "TOOL_LUMOSDB_SERVICE_URL"))
      as [db|] eqn:Hdb; [|discriminate].
    destruct (truthy (environ env !! "TOOL_LUMOSTRADE_SERVICE_URL"))
      as [trade|] eqn:Htrade; [|discriminate].
    intros [= <-]. cbn [lumosdb_service_url lumostrade_service_url].
    destruct (Htruthy _ _ Hdb), (Htruthy _ _ Htrade). done.
Qed.

(** X21. For the local test agent of LumosTradeTool: when
    [TOOL_LUMOSTRADE_LOCAL_URL] is set the port variable has no effect;
    a URL made of slashes only, the empty text included, is not replaced
    by the default and gives the MCP URL ["/mcp"]; and without the URL
    variable the MCP URL is ["http://127.0.0.1:<port>/mcp"] for a port
    text that does not end with a slash, with port 8082 when that
    variable is missing too. *)
Theorem X21_local_test_agent_url (environ : gmap string string) :
  (∀ url port : string,
     environ !! "TOOL_LUMOSTRADE_LOCAL_URL" = Some url →
     TradeToolTestAgent.mcp_url (<["TOOL_LUMOSTRADE_LOCAL_PORT" := port]> environ)
       = TradeToolTestAgent.mcp_url environ) ∧
  (∀ n : nat,
     environ !! "TOOL_LUMOSTRADE_LOCAL_URL" = Some (slashes n) →
     TradeToolTestAgent.mcp_url environ = "/mcp") ∧
  (∀ port : string,
     environ !! "TOOL_LUMOSTRADE_LOCAL_URL" = None →
     environ !! "TOOL_LUMOSTRADE_LOCAL_PORT" = Some port →
     last_char port ≠ Some "/"%char →
     TradeToolTestAgent.mcp_url environ
       = ("http://127.0.0.1:" +:+ port) +:+ "/mcp") ∧
  (environ !! "TOOL_LUMOSTRADE_LOCAL_URL" = None →
   environ !! "TOOL_LUMOSTRADE_LOCAL_PORT" = None →
   TradeToolTestAgent.mcp_url environ = "http://127.0.0.1:8082/mcp").
Proof.
  unfold TradeToolTestAgent.mcp_url, TradeToolTestAgent.base_url,
    TradeToolTestAgent.local_port, PyStr.environ_get.
  split; [|split; [|split]].
  - intros url port Hurl.
    rewrite lookup_insert_ne by discriminate. by rewrite Hurl.
  - intros n Hurl. rewrite Hurl. by rewrite rstrip_slashes.
  - intros port Hurl Hport Hlast. rewrite Hurl, Hport.
    rewrite rstrip_slash_id; [reflexivity|].
    destruct port as [|c port']; [vm_compute; discriminate|].
    by rewrite last_char_app.
  - intros Hurl Hport. rewrite Hurl, Hport. reflexivity.
Qed.

(** *** [str.split(",")] and the allowed origins *)

Lemma split_length (sep : ascii) (s : string) :
  length (PyStr.split sep s) = S (count_char sep s).
Proof.
  induction s as [|a s IH]; [reflexivity|]. cbn [PyStr.split count_char].
  destruct (Ascii.eqb a sep).
  - cbn [length]. by rewrite IH.
  - destruct (PyStr.split sep s) as [|piece pieces]; [discriminate|].
    exact IH.
Qed.

Lemma split_no_sep (sep : ascii) (s : string) :
  Forall (fun piece => count_char sep piece = 0%nat) (PyStr.split sep s).
Proof.
  induction s as [|a s IH]; cbn [PyStr.split].
  - by apply Forall_singleton.
  - destruct (Ascii.eqb a sep) eqn:Ha.
    + by apply Forall_cons_2.
    + destruct (PyStr.split sep s) as [|piece pieces].
      * apply Forall_singleton. cbn [count_char]. by rewrite Ha.
      * apply Forall_cons in IH. destruct IH as [Hp Hps].
        apply Forall_cons_2; [|exact Hps].
        cbn [count_char]. by rewrite Ha.
Qed.

Lemma join_split (sep : ascii) (s : string) :
  join (String sep EmptyString) (PyStr.split sep s) = s.
Proof.
  induction s as [|a s IH]; [reflexivity|]. cbn [PyStr.split].
  pose proof (split_length sep s) as Hlen.
  destruct (Ascii.eqb_spec a sep) as [-> | Hne].
  - destruct (PyStr.split sep s) as [|piece pieces]; [discriminate|].
    cbn [join]. cbn [join] in IH. by rewrite IH.
  - destruct (PyStr.split sep s) as [|piece pieces]; [discriminate|].
    cbn [join]. cbn [join] in IH. destruct pieces as [|p ps].
    + by rewrite IH.
    + change (String a piece +:+ String sep EmptyString +:+ join (String sep EmptyString) (p :: ps))
        with (String a (piece +:+ String sep EmptyString +:+ join (String sep EmptyString) (p :: ps))).
      by rewrite IH.
Qed.

Lemma lstrip_count (ch : ascii) (s : string) :
  (count_char ch (lstrip s) <= count_char ch s)%nat.
Proof.
  induction s as [|a s IH]; [done|]. cbn [lstrip].
  destruct (is_space a); [|done]. cbn [count_char]. lia.
Qed.

Lemma rstrip_count (ch : ascii) (s : string) :
  (count_char ch (rstrip s) <= count_char ch s)%nat.
Proof.
  induction s as [|a s IH]; [done|]. cbn [rstrip].
  destruct (rstrip s) as [|b t].
  - destruct (is_space a); cbn [count_char] in *; lia.
  - cbn [count_char] in *. lia.
Qed.

Lemma strip_count (ch : ascii) (s : string) :
  (count_char ch (strip s) <= count_char ch s)%nat.
Proof.
  unfold strip. pose proof (rstrip_count ch (lstrip s)).
  pose proof (lstrip_count ch s). lia.
Qed.

(** X22. Importing main.py needs [ALLOWED_ORIGINS]: missing or empty it
    raises [ValueError]. Otherwise the import succeeds and the allowed
    origins are one more than the commas of the value, each without
    white space at its ends and without a comma; empty entries are kept.
    The other settings take the value of their variable, the empty text
    included, and their default only when the variable is missing. *)
Theorem X22_allowed_origins (environ : gmap string string) :
  (AuthHelper.truthy (environ !! "ALLOWED_ORIGINS") = None →
   Main.load environ
     = Raise (Exn ValueError
                "ALLOWED_ORIGINS environment variable is required")) ∧
  (∀ value : string,
     AuthHelper.truthy (environ !! "ALLOWED_ORIGINS") = Some value →
     ∃ cfg : Main.Settings,
       Main.load environ = Ok cfg ∧
       length (Main.allowed_origins cfg) = S (count_char "," value) ∧
       Forall trimmed (Main.allowed_origins cfg) ∧
       Forall (fun origin => count_char "," origin = 0%nat)
         (Main.allowed_origins cfg) ∧
       Main.environment cfg
         = default "development" (environ !! "ENVIRONMENT") ∧
       Main.build_number cfg = default "local" (environ !! "BUILD_NUMBER")).
Proof.
  unfold Main.load. split; [by intros ->|].
  intros value ->. eexists. split; [reflexivity|].
  cbn [Main.allowed_origins Main.environment Main.build_number].
  split; [by rewrite length_map, split_length|].
  split; [|split].
  - apply Forall_forall. intros o Ho.
    apply list_elem_of_fmap in Ho. destruct Ho as (p & -> & _).
    apply strip_trimmed.
  - pose proof (split_no_sep "," value) as Hsplit.
    induction Hsplit as [|p ps Hp Hps IH]; cbn [map].
    + apply Forall_nil_2.
    + apply Forall_cons_2; [|exact IH].
      pose proof (strip_count "," p). lia.
  - unfold PyStr.environ_get.
    by destruct (environ !! "ENVIRONMENT"), (environ !! "BUILD_NUMBER").
Qed.

Lemma map_strip_id (pieces : list string) :
  Forall trimmed pieces → map strip pieces = pieces.
Proof.
  induction 1 as [|p ps Hp Hps IH]; [reflexivity|].
  cbn [map]. by rewrite (strip_id p Hp), IH.
Qed.

(** X23. No origin is lost or merged: when the entries of
    [ALLOWED_ORIGINS] carry no white space around them (white space being
    what [str.strip] removes, U+0085 and U+00A0 included), joining the
    allowed origins with commas gives the value of the variable back; and
    a value without a comma gives one origin, the stripped value. *)
Theorem X23_allowed_origins_round_trip (environ : gmap string string)
    (value : string) (cfg : Main.Settings) :
  AuthHelper.truthy (environ !! "ALLOWED_ORIGINS") = Some value →
  Main.load environ = Ok cfg →
  (Forall trimmed (PyStr.split "," value) →
   join "," (Main.allowed_origins cfg) = value) ∧
  (count_char "," value = 0%nat →
   Main.allowed_origins cfg = [strip value]).
Proof.
  unfold Main.load. intros ->. intros [= <-]. cbn [Main.allowed_origins].
  split.
  - intros Htrim. rewrite (map_strip_id _ Htrim). apply (join_split ",").
  - intros Hc. pose proof (join_split "," value) as Hj.
    pose proof (split_length "," value) as Hl. rewrite Hc in Hl.
    destruct (PyStr.split "," value) as [|p [|q ps]]; try discriminate.
    cbn [join] in Hj. by rewrite Hj.
Qed.

(** *** The theorems at concrete inputs *)

Lemma X20_tool_urls_are_required_witness :
  MyTools.load (env_with environ_only_trade)
    = Raise (Exn RuntimeError "TOOL_LUMOSDB_SERVICE_URL must be set") ∧
  MyTools.load (env_with environ_only_db)
    = Raise (Exn RuntimeError "TOOL_LUMOSTRADE_SERVICE_URL must be set") ∧
  environ (env_with environ_tools) !! "TOOL_LUMOSDB_SERVICE_URL"
    = Some (lumosdb_service_url sample_globals) ∧
  environ (env_with environ_tools) !! "TOOL_LUMOSTRADE_SERVICE_URL"
    = Some (lumostrade_service_url sample_globals) ∧
  lumosdb_service_url sample_globals ≠ EmptyString ∧
  lumostrade_service_url sample_globals ≠ EmptyString.
Proof.
  split; [|split].
  - apply (proj1 (X20_tool_urls_are_required (env_with environ_only_trade))).
    reflexivity.
  - apply (proj1 (proj2 (X20_tool_urls_are_required (env_with environ_only_db)))
             "https://lumosdb.example.run.app/"); reflexivity.
  - apply (proj2 (proj2 (X20_tool_urls_are_required (env_with environ_tools)))
             sample_globals).
    reflexivity.
Defined.

Lemma X21_local_test_agent_url_witness :
  TradeToolTestAgent.mcp_url
    (<["TOOL_LUMOSTRADE_LOCAL_PORT" := "9001"]> environ_slash_url)
    = TradeToolTestAgent.mcp_url environ_slash_url ∧
  TradeToolTestAgent.mcp_url environ_slash_url = "/mcp" ∧
  TradeToolTestAgent.mcp_url environ_port_only
    = ("http://127.0.0.1:" +:+ "9000") +:+ "/mcp" ∧
  TradeToolTestAgent.mcp_url ∅ = "http://127.0.0.1:8082/mcp".
Proof.
  split; [|split; [|split]].
  - apply (proj1 (X21_local_test_agent_url environ_slash_url) "//" "9001").
    reflexivity.
  - apply (proj1 (proj2 (X21_local_test_agent_url environ_slash_url)) 2%nat).
    reflexivity.
  - apply (proj1 (proj2 (proj2 (X21_local_test_agent_url environ_port_only)))
             "9000"); [reflexivity | reflexivity | vm_compute; discriminate].
  - apply (proj2 (proj2 (proj2 (X21_local_test_agent_url ∅)))); reflexivity.
Defined.

Lemma X22_allowed_origins_witness :
  Main.load ∅
    = Raise (Exn ValueError
               "ALLOWED_ORIGINS environment variable is required") ∧
  ∃ cfg : Main.Settings,
    Main.load environ_two_origins = Ok cfg ∧
    length (Main.allowed_origins cfg)
      = S (count_char "," "https://a.example, https://b.example") ∧
    Forall trimmed (Main.allowed_origins cfg) ∧
    Forall (fun origin => count_char "," origin = 0%nat)
      (Main.allowed_origins cfg) ∧
    Main.environment cfg
      = default "development" (environ_two_origins !! "ENVIRONMENT") ∧
    Main.build_number cfg
      = default "local" (environ_two_origins !! "BUILD_NUMBER").
Proof.
  split.
  - apply (proj1 (X22_allowed_origins ∅)). reflexivity.
  - apply (proj2 (X22_allowed_origins environ_two_origins)
             "https://a.example, https://b.example").
    reflexivity.
Defined.

Lemma X23_allowed_origins_round_trip_witness :
  join "," [ "https://a.example" ] = "https://a.example" ∧
  [ "https://a.example" ] = [ strip "https://a.example" ].
Proof.
  assert (AuthHelper.truthy (environ_one_origin !! "ALLOWED_ORIGINS")
          = Some "https://a.example")
    as Hset by reflexivity.
  assert (Main.load environ_one_origin
          = Ok (Main.mkSettings "development" "local" EmptyString
                  [ "https://a.example" ]))
    as Hload by reflexivity.
  split.
  - apply (proj1 (X23_allowed_origins_round_trip _ _ _ Hset Hload)).
    vm_compute. apply Forall_singleton.
    split; intros c [= <-]; reflexivity.
  - apply (proj2 (X23_allowed_origins_round_trip _ _ _ Hset Hload)).
    reflexivity.
Defined.

End MoreConfig.
